(** * CropYieldPredictor: the form/result workflow of the yield-mentor screen

    A shallow embedding of the stateful logic of the [CropYieldPredictor]
    React component (state cells, event handlers, the asynchronous
    [detectLocation] callback) together with the properties of its workflow.

    - JavaScript numbers are IEEE-754 binary64 values: [float].
    - The [useState] cells form the record [Component]; a handler is an
      action in the monad [Act], which threads the cells, the log of calls made
      to collaborators (toasts, callbacks, [fetch], console) and the way the
      handler completes (normally, by a throw, or suspended at an [await]).
    - A handler closes over the values of the render that created it; the
      setters act on the latest cells.  Handlers therefore take the render they
      belong to as an argument.
    - Suspended [detectLocation] calls live in the [Runtime], keyed by an
      identifier, until the platform settles the promise they wait for. *)

From Stdlib Require Import Floats.
From stdpp Require Import gmap strings list.

Set Warnings "-inexact-float".
Local Open Scope string_scope.
Local Open Scope list_scope.

(** ** JavaScript values *)

Module JS.

(** [!!x] for a number: [0], [-0] and [NaN] are falsy. *)
Definition truthy_number (x : float) : bool :=
  negb (PrimFloat.eqb x 0 || PrimFloat.is_nan x).

(** [!!s] for a string: only the empty string is falsy. *)
Definition truthy_string (s : string) : bool :=
  match s with
  | EmptyString => false
  | String _ _ => true
  end.

(** [x || 0] *)
Definition or_zero (x : float) : float :=
  if truthy_number x then x else 0%float.

(** [x || null] *)
Definition or_null (x : float) : option float :=
  if truthy_number x then Some x else None.

(** [xs.includes(x)] on an array of strings *)
Definition includes (xs : list string) (x : string) : bool :=
  bool_decide (x ∈ xs).

End JS.

(** What the component takes from the browser: the number conversions used in
    the handlers and the two [navigator] properties it reads. *)
Record Platform := {
  parseFloat : string → float;
  Number_toString : float → string;
  Number_toFixed : float → nat → string;
  navigator_onLine : bool;
  navigator_geolocation : bool
}.

(** ** Interfaces *)

Record Date := { getTime : Z }.
Record File := { file_name : string }.

Module FarmLocation.
Record t := mk { lat : float; lon : float; name : string }.
End FarmLocation.

Module FarmSize.
Record t := mk { value : float; unit : string }.
End FarmSize.

Record PredictionData := {
  cropName : string;
  variety : string;
  sowingDate : option Date;
  farmLocation : option FarmLocation.t;
  farmSize : FarmSize.t;
  soilType : string;
  soilPH : option float;
  nLevel : option float;
  pLevel : option float;
  kLevel : option float;
  irrigationSource : string;
  lastIrrigationDate : option Date;
  fertilizersUsed : list string;
  pestObserved : bool;
  pestPhoto : option File
}.

Module PredictedYield.
Record t := mk { value : float; unit : string }.
End PredictedYield.

Module ConfidenceInterval.
Record t := mk { min : float; max : float }.
End ConfidenceInterval.

Module Recommendation.
Record t := mk { type : string; title : string; description : string; icon : string }.
End Recommendation.

Record PredictionResult := {
  predictedYield : PredictedYield.t;
  confidenceInterval : ConfidenceInterval.t;
  recommendations : list Recommendation.t;
  explanation : string;
  isOffline : option bool
}.

(** A collaborator callback either returns or throws. *)
Inductive CallbackResult := returns | throws.

Record CropYieldPredictorProps := {
  onPredict : option (PredictionData → CallbackResult);
  onSave : option (PredictionData → CallbackResult)
}.

(** ** Object spreads [{ ...prev, field: v }] *)

Definition with_cropName (v : string) (prev : PredictionData) : PredictionData :=
  {| cropName := v; variety := variety prev; sowingDate := sowingDate prev;
     farmLocation := farmLocation prev; farmSize := farmSize prev;
     soilType := soilType prev; soilPH := soilPH prev; nLevel := nLevel prev;
     pLevel := pLevel prev; kLevel := kLevel prev;
     irrigationSource := irrigationSource prev;
     lastIrrigationDate := lastIrrigationDate prev;
     fertilizersUsed := fertilizersUsed prev; pestObserved := pestObserved prev;
     pestPhoto := pestPhoto prev |}.

Definition with_variety (v : string) (prev : PredictionData) : PredictionData :=
  {| cropName := cropName prev; variety := v; sowingDate := sowingDate prev;
     farmLocation := farmLocation prev; farmSize := farmSize prev;
     soilType := soilType prev; soilPH := soilPH prev; nLevel := nLevel prev;
     pLevel := pLevel prev; kLevel := kLevel prev;
     irrigationSource := irrigationSource prev;
     lastIrrigationDate := lastIrrigationDate prev;
     fertilizersUsed := fertilizersUsed prev; pestObserved := pestObserved prev;
     pestPhoto := pestPhoto prev |}.

Definition with_sowingDate (v : option Date) (prev : PredictionData) : PredictionData :=
  {| cropName := cropName prev; variety := variety prev; sowingDate := v;
     farmLocation := farmLocation prev; farmSize := farmSize prev;
     soilType := soilType prev; soilPH := soilPH prev; nLevel := nLevel prev;
     pLevel := pLevel prev; kLevel := kLevel prev;
     irrigationSource := irrigationSource prev;
     lastIrrigationDate := lastIrrigationDate prev;
     fertilizersUsed := fertilizersUsed prev; pestObserved := pestObserved prev;
     pestPhoto := pestPhoto prev |}.

Definition with_farmLocation (v : option FarmLocation.t) (prev : PredictionData)
  : PredictionData :=
  {| cropName := cropName prev; variety := variety prev;
     sowingDate := sowingDate prev; farmLocation := v; farmSize := farmSize prev;
     soilType := soilType prev; soilPH := soilPH prev; nLevel := nLevel prev;
     pLevel := pLevel prev; kLevel := kLevel prev;
     irrigationSource := irrigationSource prev;
     lastIrrigationDate := lastIrrigationDate prev;
     fertilizersUsed := fertilizersUsed prev; pestObserved := pestObserved prev;
     pestPhoto := pestPhoto prev |}.

Definition with_farmSize (v : FarmSize.t) (prev : PredictionData) : PredictionData :=
  {| cropName := cropName prev; variety := variety prev;
     sowingDate := sowingDate prev; farmLocation := farmLocation prev;
     farmSize := v; soilType := soilType prev; soilPH := soilPH prev;
     nLevel := nLevel prev; pLevel := pLevel prev; kLevel := kLevel prev;
     irrigationSource := irrigationSource prev;
     lastIrrigationDate := lastIrrigationDate prev;
     fertilizersUsed := fertilizersUsed prev; pestObserved := pestObserved prev;
     pestPhoto := pestPhoto prev |}.

Definition with_soilType (v : string) (prev : PredictionData) : PredictionData :=
  {| cropName := cropName prev; variety := variety prev;
     sowingDate := sowingDate prev; farmLocation := farmLocation prev;
     farmSize := farmSize prev; soilType := v; soilPH := soilPH prev;
     nLevel := nLevel prev; pLevel := pLevel prev; kLevel := kLevel prev;
     irrigationSource := irrigationSource prev;
     lastIrrigationDate := lastIrrigationDate prev;
     fertilizersUsed := fertilizersUsed prev; pestObserved := pestObserved prev;
     pestPhoto := pestPhoto prev |}.

Definition with_soilPH (v : option float) (prev : PredictionData) : PredictionData :=
  {| cropName := cropName prev; variety := variety prev;
     sowingDate := sowingDate prev; farmLocation := farmLocation prev;
     farmSize := farmSize prev; soilType := soilType prev; soilPH := v;
     nLevel := nLevel prev; pLevel := pLevel prev; kLevel := kLevel prev;
     irrigationSource := irrigationSource prev;
     lastIrrigationDate := lastIrrigationDate prev;
     fertilizersUsed := fertilizersUsed prev; pestObserved := pestObserved prev;
     pestPhoto := pestPhoto prev |}.

Definition with_nLevel (v : option float) (prev : PredictionData) : PredictionData :=
  {| cropName := cropName prev; variety := variety prev;
     sowingDate := sowingDate prev; farmLocation := farmLocation prev;
     farmSize := farmSize prev; soilType := soilType prev; soilPH := soilPH prev;
     nLevel := v; pLevel := pLevel prev; kLevel := kLevel prev;
     irrigationSource := irrigationSource prev;
     lastIrrigationDate := lastIrrigationDate prev;
     fertilizersUsed := fertilizersUsed prev; pestObserved := pestObserved prev;
     pestPhoto := pestPhoto prev |}.

Definition with_pLevel (v : option float) (prev : PredictionData) : PredictionData :=
  {| cropName := cropName prev; variety := variety prev;
     sowingDate := sowingDate prev; farmLocation := farmLocation prev;
     farmSize := farmSize prev; soilType := soilType prev; soilPH := soilPH prev;
     nLevel := nLevel prev; pLevel := v; kLevel := kLevel prev;
     irrigationSource := irrigationSource prev;
     lastIrrigationDate := lastIrrigationDate prev;
     fertilizersUsed := fertilizersUsed prev; pestObserved := pestObserved prev;
     pestPhoto := pestPhoto prev |}.

Definition with_kLevel (v : option float) (prev : PredictionData) : PredictionData :=
  {| cropName := cropName prev; variety := variety prev;
     sowingDate := sowingDate prev; farmLocation := farmLocation prev;
     farmSize := farmSize prev; soilType := soilType prev; soilPH := soilPH prev;
     nLevel := nLevel prev; pLevel := pLevel prev; kLevel := v;
     irrigationSource := irrigationSource prev;
     lastIrrigationDate := lastIrrigationDate prev;
     fertilizersUsed := fertilizersUsed prev; pestObserved := pestObserved prev;
     pestPhoto := pestPhoto prev |}.

Definition with_irrigationSource (v : string) (prev : PredictionData)
  : PredictionData :=
  {| cropName := cropName prev; variety := variety prev;
     sowingDate := sowingDate prev; farmLocation := farmLocation prev;
     farmSize := farmSize prev; soilType := soilType prev; soilPH := soilPH prev;
     nLevel := nLevel prev; pLevel := pLevel prev; kLevel := kLevel prev;
     irrigationSource := v; lastIrrigationDate := lastIrrigationDate prev;
     fertilizersUsed := fertilizersUsed prev; pestObserved := pestObserved prev;
     pestPhoto := pestPhoto prev |}.

Definition with_lastIrrigationDate (v : option Date) (prev : PredictionData)
  : PredictionData :=
  {| cropName := cropName prev; variety := variety prev;
     sowingDate := sowingDate prev; farmLocation := farmLocation prev;
     farmSize := farmSize prev; soilType := soilType prev; soilPH := soilPH prev;
     nLevel := nLevel prev; pLevel := pLevel prev; kLevel := kLevel prev;
     irrigationSource := irrigationSource prev; lastIrrigationDate := v;
     fertilizersUsed := fertilizersUsed prev; pestObserved := pestObserved prev;
     pestPhoto := pestPhoto prev |}.

Definition with_fertilizersUsed (v : list string) (prev : PredictionData)
  : PredictionData :=
  {| cropName := cropName prev; variety := variety prev;
     sowingDate := sowingDate prev; farmLocation := farmLocation prev;
     farmSize := farmSize prev; soilType := soilType prev; soilPH := soilPH prev;
     nLevel := nLevel prev; pLevel := pLevel prev; kLevel := kLevel prev;
     irrigationSource := irrigationSource prev;
     lastIrrigationDate := lastIrrigationDate prev; fertilizersUsed := v;
     pestObserved := pestObserved prev; pestPhoto := pestPhoto prev |}.

Definition with_pestObserved (v : bool) (prev : PredictionData) : PredictionData :=
  {| cropName := cropName prev; variety := variety prev;
     sowingDate := sowingDate prev; farmLocation := farmLocation prev;
     farmSize := farmSize prev; soilType := soilType prev; soilPH := soilPH prev;
     nLevel := nLevel prev; pLevel := pLevel prev; kLevel := kLevel prev;
     irrigationSource := irrigationSource prev;
     lastIrrigationDate := lastIrrigationDate prev;
     fertilizersUsed := fertilizersUsed prev; pestObserved := v;
     pestPhoto := pestPhoto prev |}.

(** [{ ...prev.farmSize, value: v }] and [{ ...prev.farmSize, unit: v }] *)
Definition with_value (v : float) (prev : FarmSize.t) : FarmSize.t :=
  FarmSize.mk v (FarmSize.unit prev).

Definition with_unit (v : string) (prev : FarmSize.t) : FarmSize.t :=
  FarmSize.mk (FarmSize.value prev) v.

(** ** The state cells of the component *)

Inductive Language := en | hi.

Record Component := {
  language : Language;
  isOnline : bool;
  isLoading : bool;
  isLocating : bool;
  data : PredictionData;
  result : option PredictionResult;
  selectedFertilizers : list string
}.

(** ** Calls to collaborators *)

Inductive ToastVariant := Default | Destructive.

Record Toast := {
  toast_title : string;
  toast_description : string;
  toast_variant : ToastVariant
}.

Inductive Effect :=
| toast (t : Toast)
| call_onPredict (payload : PredictionData)
| call_onSave (payload : PredictionData)
| fetch (url : string)
| console_log (label : string) (body : string)
| console_error (label : string) (reason : string).

Definition is_fetch (e : Effect) : bool :=
  match e with
  | fetch _ => true
  | _ => false
  end.

Definition is_call_onSave (e : Effect) : bool :=
  match e with
  | call_onSave _ => true
  | _ => false
  end.

(** ** Promises settled by the platform *)

Inductive GeolocationPositionError :=
  PERMISSION_DENIED | POSITION_UNAVAILABLE | TIMEOUT.

Inductive PositionOutcome :=
| position_resolved (latitude longitude : float)
| position_rejected (error : GeolocationPositionError).

(** A fetcher's [fetch(..)] followed by [response.json()]: the body, or the
    reason one of the two promises was rejected with. *)
Inductive FetchOutcome :=
| fetch_json (body : string)
| fetch_rejected (reason : string).

Inductive Fetcher := Weather | Soil.

(** Where a [detectLocation] call is suspended.  The call keeps the [isOnline]
    of the render whose callback was invoked. *)
Inductive Suspended :=
| awaiting_position (closure_isOnline : bool)
| awaiting_enrichment (locationName : string) (weather_settled soil_settled : bool).

Inductive Exception :=
| geolocation_error (e : GeolocationPositionError)
| callback_error.

(** ** Handler actions *)

Inductive Completion (A : Type) :=
| Normal (a : A)
| Throw (e : Exception)
| Await (at_ : Suspended).
Arguments Normal {A} a.
Arguments Throw {A} e.
Arguments Await {A} at_.

Definition Act (A : Type) : Type :=
  Component → Component * list Effect * Completion A.

#[export] Instance Act_ret : MRet Act := λ A a c, (c, [], Normal a).

#[export] Instance Act_bind : MBind Act := λ A B f m c,
  match m c with
  | (c1, log1, Normal a) =>
      let '(c2, log2, r) := f a c1 in (c2, log1 ++ log2, r)
  | (c1, log1, Throw e) => (c1, log1, Throw e)
  | (c1, log1, Await k) => (c1, log1, Await k)
  end.

Definition emit (e : Effect) : Act () := λ c, (c, [e], Normal ()).
Definition throw {A} (e : Exception) : Act A := λ c, (c, [], Throw e).
Definition await {A} (k : Suspended) : Act A := λ c, (c, [], Await k).

(** [try { body } catch (error) { handler } finally { final }].  A body that is
    suspended at an [await] has not left the [try] statement. *)
Definition try_catch_finally (body : Act ()) (handler : Exception → Act ())
    (final : Act ()) : Act () := λ c,
  match body c with
  | (c1, log1, Await k) => (c1, log1, Await k)
  | (c1, log1, Normal _) =>
      let '(c2, log2, r) := final c1 in (c2, log1 ++ log2, r)
  | (c1, log1, Throw e) =>
      match handler e c1 with
      | (c2, log2, Await k) => (c2, log1 ++ log2, Await k)
      | (c2, log2, Normal _) =>
          let '(c3, log3, r) := final c2 in (c3, log1 ++ log2 ++ log3, r)
      | (c2, log2, Throw e') =>
          let '(c3, log3, r) := final c2 in
          (c3, log1 ++ log2 ++ log3,
           match r with Normal _ => Throw e' | _ => r end)
      end
  end.

(** The [useState] setters. *)
Definition setLanguage (v : Language) : Act () := λ c,
  ({| language := v; isOnline := isOnline c; isLoading := isLoading c;
      isLocating := isLocating c; data := data c; result := result c;
      selectedFertilizers := selectedFertilizers c |}, [], Normal ()).

Definition setIsOnline (v : bool) : Act () := λ c,
  ({| language := language c; isOnline := v; isLoading := isLoading c;
      isLocating := isLocating c; data := data c; result := result c;
      selectedFertilizers := selectedFertilizers c |}, [], Normal ()).

Definition setIsLoading (v : bool) : Act () := λ c,
  ({| language := language c; isOnline := isOnline c; isLoading := v;
      isLocating := isLocating c; data := data c; result := result c;
      selectedFertilizers := selectedFertilizers c |}, [], Normal ()).

Definition setIsLocating (v : bool) : Act () := λ c,
  ({| language := language c; isOnline := isOnline c; isLoading := isLoading c;
      isLocating := v; data := data c; result := result c;
      selectedFertilizers := selectedFertilizers c |}, [], Normal ()).

(** [setData(prev => f(prev))] *)
Definition setData (f : PredictionData → PredictionData) : Act () := λ c,
  ({| language := language c; isOnline := isOnline c; isLoading := isLoading c;
      isLocating := isLocating c; data := f (data c); result := result c;
      selectedFertilizers := selectedFertilizers c |}, [], Normal ()).

Definition setResult (v : option PredictionResult) : Act () := λ c,
  ({| language := language c; isOnline := isOnline c; isLoading := isLoading c;
      isLocating := isLocating c; data := data c; result := v;
      selectedFertilizers := selectedFertilizers c |}, [], Normal ()).

Definition setSelectedFertilizers (v : list string) : Act () := λ c,
  ({| language := language c; isOnline := isOnline c; isLoading := isLoading c;
      isLocating := isLocating c; data := data c; result := result c;
      selectedFertilizers := v |}, [], Normal ()).

(** [callback?.(payload)] *)
Definition optional_call (callback : option (PredictionData → CallbackResult))
    (record : PredictionData → Effect) (payload : PredictionData) : Act () :=
  match callback with
  | None => mret ()
  | Some f =>
      emit (record payload);;
      match f payload with
      | returns => mret ()
      | throws => throw callback_error
      end
  end.

(** The handler of the render the cells are in. *)
Definition on (handler : Component → Act ()) : Act () := λ c, handler c c.

Definition state_of {A} (r : Component * list Effect * Completion A) : Component :=
  r.1.1.
Definition log_of {A} (r : Component * list Effect * Completion A) : list Effect :=
  r.1.2.
Definition completion_of {A} (r : Component * list Effect * Completion A)
  : Completion A := r.2.

(** ** The form inputs *)

(** One constructor per [onChange] / [onValueChange] / [onSelect] /
    [onCheckedChange] handler of the form, with the argument the widget passes. *)
Inductive FieldUpdate :=
| crop_selected (value : string)
| variety_typed (value : string)
| sowingDate_selected (date : option Date)
| farmSize_value_typed (value : string)
| farmSize_unit_selected (value : string)
| soilType_selected (value : string)
| soilPH_typed (value : string)
| nLevel_typed (value : string)
| pLevel_typed (value : string)
| kLevel_typed (value : string)
| irrigationSource_selected (value : string)
| lastIrrigationDate_selected (date : option Date)
| pestObserved_switched (checked : bool).

(** The attributes of a [PredictionData], the two attributes of the [farmSize]
    group counted apart. *)
Inductive Field :=
| f_cropName | f_variety | f_sowingDate | f_farmLocation
| f_farmSize_value | f_farmSize_unit | f_soilType | f_soilPH
| f_nLevel | f_pLevel | f_kLevel | f_irrigationSource
| f_lastIrrigationDate | f_fertilizersUsed | f_pestObserved | f_pestPhoto.

Inductive FieldValue :=
| v_string (s : string)
| v_number (x : float)
| v_nullable_number (x : option float)
| v_date (d : option Date)
| v_location (l : option FarmLocation.t)
| v_strings (l : list string)
| v_boolean (b : bool)
| v_file (f : option File).

Definition read (f : Field) (d : PredictionData) : FieldValue :=
  match f with
  | f_cropName => v_string (cropName d)
  | f_variety => v_string (variety d)
  | f_sowingDate => v_date (sowingDate d)
  | f_farmLocation => v_location (farmLocation d)
  | f_farmSize_value => v_number (FarmSize.value (farmSize d))
  | f_farmSize_unit => v_string (FarmSize.unit (farmSize d))
  | f_soilType => v_string (soilType d)
  | f_soilPH => v_nullable_number (soilPH d)
  | f_nLevel => v_nullable_number (nLevel d)
  | f_pLevel => v_nullable_number (pLevel d)
  | f_kLevel => v_nullable_number (kLevel d)
  | f_irrigationSource => v_string (irrigationSource d)
  | f_lastIrrigationDate => v_date (lastIrrigationDate d)
  | f_fertilizersUsed => v_strings (fertilizersUsed d)
  | f_pestObserved => v_boolean (pestObserved d)
  | f_pestPhoto => v_file (pestPhoto d)
  end.

Definition target (u : FieldUpdate) : Field :=
  match u with
  | crop_selected _ => f_cropName
  | variety_typed _ => f_variety
  | sowingDate_selected _ => f_sowingDate
  | farmSize_value_typed _ => f_farmSize_value
  | farmSize_unit_selected _ => f_farmSize_unit
  | soilType_selected _ => f_soilType
  | soilPH_typed _ => f_soilPH
  | nLevel_typed _ => f_nLevel
  | pLevel_typed _ => f_pLevel
  | kLevel_typed _ => f_kLevel
  | irrigationSource_selected _ => f_irrigationSource
  | lastIrrigationDate_selected _ => f_lastIrrigationDate
  | pestObserved_switched _ => f_pestObserved
  end.

(** ** Toasts *)

Definition location_not_supported : Toast :=
  {| toast_title := "Location not supported";
     toast_description := "Your browser doesn't support location detection";
     toast_variant := Destructive |}.

Definition location_detected (locationName : string) : Toast :=
  {| toast_title := "Location detected";
     toast_description := "Farm location set to " +:+ locationName;
     toast_variant := Default |}.

Definition location_error : Toast :=
  {| toast_title := "Location error";
     toast_description := "Could not detect your location. Please select manually.";
     toast_variant := Destructive |}.

Definition missing_information : Toast :=
  {| toast_title := "Missing information";
     toast_description := "Please fill in all required fields";
     toast_variant := Destructive |}.

Definition prediction_error : Toast :=
  {| toast_title := "Prediction error";
     toast_description := "Could not generate prediction. Please try again.";
     toast_variant := Destructive |}.

Definition data_saved : Toast :=
  {| toast_title := "Data saved";
     toast_description := "Your farm data has been saved successfully";
     toast_variant := Default |}.

(** ** The handlers *)

Section CropYieldPredictor.

Variable P : Platform.
Variable props : CropYieldPredictorProps.

(** The function passed to [setData] by each input of the form. *)
Definition updateField (u : FieldUpdate) (prev : PredictionData) : PredictionData :=
  match u with
  | crop_selected value => with_cropName value prev
  | variety_typed value => with_variety value prev
  | sowingDate_selected date => with_sowingDate date prev
  | farmSize_value_typed value =>
      with_farmSize
        (with_value (JS.or_zero (parseFloat P value)) (farmSize prev)) prev
  | farmSize_unit_selected value =>
      with_farmSize (with_unit value (farmSize prev)) prev
  | soilType_selected value => with_soilType value prev
  | soilPH_typed value => with_soilPH (JS.or_null (parseFloat P value)) prev
  | nLevel_typed value => with_nLevel (JS.or_null (parseFloat P value)) prev
  | pLevel_typed value => with_pLevel (JS.or_null (parseFloat P value)) prev
  | kLevel_typed value => with_kLevel (JS.or_null (parseFloat P value)) prev
  | irrigationSource_selected value => with_irrigationSource value prev
  | lastIrrigationDate_selected date => with_lastIrrigationDate date prev
  | pestObserved_switched checked => with_pestObserved checked prev
  end.

(** [`${x}`] for [x : number | null] *)
Definition template_nullable (x : option float) : string :=
  match x with
  | None => "null"
  | Some v => Number_toString P v
  end.

(** The first half of a fetcher, up to its [await fetch(..)]. *)
Definition fetchWeatherData (lat lon : float) : Act () :=
  emit (fetch ("/api/weather?lat=" +:+ Number_toString P lat
               +:+ "&lon=" +:+ Number_toString P lon)).

Definition fetchSoilData (lat lon : float) : Act () :=
  emit (fetch ("/api/soil?lat=" +:+ Number_toString P lat
               +:+ "&lon=" +:+ Number_toString P lon)).

(** The second half: the [try] logs the body, the [catch] logs the error. *)
Definition fetcher_settled (who : Fetcher) (o : FetchOutcome) : Act () :=
  match who, o with
  | Weather, fetch_json body => emit (console_log "Weather data:" body)
  | Weather, fetch_rejected reason => emit (console_error "Weather fetch error:" reason)
  | Soil, fetch_json body => emit (console_log "Soil data:" body)
  | Soil, fetch_rejected reason => emit (console_error "Soil fetch error:" reason)
  end.

(** The [try]/[catch]/[finally] of [detectLocation]; each stretch of the body
    between two [await]s runs inside it. *)
Definition locating (body : Act ()) : Act () :=
  try_catch_finally body
    (λ _, emit (toast location_error))
    (setIsLocating false).

Definition detectLocation (r : Component) : Act () :=
  if negb (navigator_geolocation P) then
    emit (toast location_not_supported)
  else
    setIsLocating true;;
    locating (await (awaiting_position (isOnline r))).

(** From the settlement of [getCurrentPosition] on. *)
Definition detectLocation_located (closure_isOnline : bool) (o : PositionOutcome)
  : Act () :=
  locating (
    match o with
    | position_rejected error => throw (geolocation_error error)
    | position_resolved latitude longitude =>
        let locationName :=
          Number_toFixed P latitude 4 +:+ ", " +:+ Number_toFixed P longitude 4 in
        setData (with_farmLocation
                   (Some (FarmLocation.mk latitude longitude locationName)));;
        (if closure_isOnline then
           fetchWeatherData latitude longitude;;
           fetchSoilData latitude longitude;;
           await (awaiting_enrichment locationName false false)
         else mret ());;
        emit (toast (location_detected locationName))
    end).

(** From the settlement of one of the two fetchers on: [Promise.all] is
    fulfilled once both have settled. *)
Definition detectLocation_enriched (locationName : string)
    (weather_settled soil_settled : bool) : Act () :=
  locating (
    (if weather_settled && soil_settled then mret ()
     else await (awaiting_enrichment locationName weather_settled soil_settled));;
    emit (toast (location_detected locationName))).

Definition mockResult (r : Component) : PredictionResult :=
  {| predictedYield := PredictedYield.mk 4.2 "tonnes/hectare";
     confidenceInterval := ConfidenceInterval.mk 3.8 4.6;
     recommendations :=
       [ Recommendation.mk "irrigation" "Optimize Irrigation"
           "Increase irrigation frequency by 20% during flowering stage"
           "droplets";
         Recommendation.mk "fertilization" "Nitrogen Boost"
           "Apply additional 15kg/ha nitrogen in the next 2 weeks"
           "zap";
         Recommendation.mk "pest" "Pest Monitoring"
           "Monitor for aphids and apply organic neem spray if needed"
           "bug" ];
     explanation :=
       "Based on your " +:+ cropName (data r)
       +:+ " variety, soil conditions, and current weather patterns, we predict a yield of 4.2 tonnes per hectare. The soil pH of "
       +:+ template_nullable (soilPH (data r))
       +:+ " is optimal for this crop. Consider the recommendations above to potentially increase yield by 8-12%.";
     isOffline := Some (negb (isOnline r)) |}.

Definition handlePredict (r : Component) : Act () :=
  if negb (JS.truthy_string (cropName (data r)))
     || negb (JS.truthy_string (soilType (data r)))
     || negb (JS.truthy_number (FarmSize.value (farmSize (data r))))
  then emit (toast missing_information)
  else
    setIsLoading true;;
    try_catch_finally
      (setResult (Some (mockResult r));;
       optional_call (onPredict props) call_onPredict (data r))
      (λ _, emit (toast prediction_error))
      (setIsLoading false).

Definition handleSave (r : Component) : Act () :=
  optional_call (onSave props) call_onSave (data r);;
  emit (toast data_saved).

Definition toggleFertilizer (r : Component) (fertilizer : string) : Act () :=
  let updated :=
    if JS.includes (selectedFertilizers r) fertilizer
    then filter (λ f, f ≠ fertilizer) (selectedFertilizers r)
    else selectedFertilizers r ++ [fertilizer] in
  setSelectedFertilizers updated;;
  setData (with_fertilizersUsed updated).

(** What the [try] block of [handlePredict] logs: the call to the
    collaborator, and the toast of the [catch] when the collaborator throws. *)
Definition predict_log (d : PredictionData) : list Effect :=
  match onPredict props with
  | None => []
  | Some f =>
      match f d with
      | returns => [call_onPredict d]
      | throws => [call_onPredict d; toast prediction_error]
      end
  end.

(** ** The running component *)

Record Runtime := {
  ui : Component;
  suspended : gmap nat Suspended;
  next_call : nat
}.

Inductive Event :=
| window_online
| window_offline
| click_language
| input (u : FieldUpdate)
| click_fertilizer (fertilizer : string)
| click_detect
| position_settled (call : nat) (o : PositionOutcome)
| fetcher_done (call : nat) (who : Fetcher) (o : FetchOutcome)
| click_predict
| click_save.

(** Run a handler; a call left at an [await] gets a new identifier. *)
Definition dispatch (act : Act ()) (rt : Runtime) : Runtime * list Effect :=
  let '(c, log, r) := act (ui rt) in
  match r with
  | Await k =>
      ({| ui := c; suspended := <[next_call rt := k]> (suspended rt);
          next_call := S (next_call rt) |}, log)
  | _ => ({| ui := c; suspended := suspended rt; next_call := next_call rt |}, log)
  end.

(** Run the rest of the suspended call [call]. *)
Definition resume (call : nat) (act : Act ()) (rt : Runtime)
  : Runtime * list Effect :=
  let '(c, log, r) := act (ui rt) in
  match r with
  | Await k =>
      ({| ui := c; suspended := <[call := k]> (suspended rt);
          next_call := next_call rt |}, log)
  | _ =>
      ({| ui := c; suspended := delete call (suspended rt);
          next_call := next_call rt |}, log)
  end.

Definition initial : Component :=
  {| language := en;
     isOnline := navigator_onLine P;
     isLoading := false;
     isLocating := false;
     data :=
       {| cropName := ""; variety := ""; sowingDate := None;
          farmLocation := None; farmSize := FarmSize.mk 0 "Hectares";
          soilType := ""; soilPH := None; nLevel := None; pLevel := None;
          kLevel := None; irrigationSource := ""; lastIrrigationDate := None;
          fertilizersUsed := []; pestObserved := false; pestPhoto := None |};
     result := None;
     selectedFertilizers := [] |}.

Definition mount : Runtime :=
  {| ui := initial; suspended := ∅; next_call := 0 |}.

(** One event of the page.  The buttons carry [disabled={isLocating}] and
    [disabled={isLoading}]; the platform settles only promises that are
    pending. *)
Definition step (rt : Runtime) (ev : Event) : Runtime * list Effect :=
  match ev with
  | window_online => dispatch (setIsOnline true) rt
  | window_offline => dispatch (setIsOnline false) rt
  | click_language =>
      dispatch (on (λ r, setLanguage (match language r with en => hi | hi => en end))) rt
  | input u => dispatch (setData (updateField u)) rt
  | click_fertilizer fertilizer =>
      dispatch (on (λ r, toggleFertilizer r fertilizer)) rt
  | click_detect =>
      if isLocating (ui rt) then (rt, []) else dispatch (on detectLocation) rt
  | position_settled call o =>
      match suspended rt !! call with
      | Some (awaiting_position closure_isOnline) =>
          resume call (detectLocation_located closure_isOnline o) rt
      | _ => (rt, [])
      end
  | fetcher_done call Weather o =>
      match suspended rt !! call with
      | Some (awaiting_enrichment locationName false soil_settled) =>
          resume call
            (fetcher_settled Weather o;;
             detectLocation_enriched locationName true soil_settled) rt
      | _ => (rt, [])
      end
  | fetcher_done call Soil o =>
      match suspended rt !! call with
      | Some (awaiting_enrichment locationName weather_settled false) =>
          resume call
            (fetcher_settled Soil o;;
             detectLocation_enriched locationName weather_settled true) rt
      | _ => (rt, [])
      end
  | click_predict =>
      if isLoading (ui rt) then (rt, []) else dispatch (on handlePredict) rt
  | click_save => dispatch (on handleSave) rt
  end.

(** A run of the page: the final state and everything the handlers did. *)
Fixpoint run (rt : Runtime) (evs : list Event) : Runtime * list Effect :=
  match evs with
  | [] => (rt, [])
  | ev :: evs' =>
      let '(rt1, log1) := step rt ev in
      let '(rt2, log2) := run rt1 evs' in
      (rt2, log1 ++ log2)
  end.

End CropYieldPredictor.

(** ** Vocabulary of the statements *)

(** The three required fields are filled in. *)
Definition required_fields_filled (d : PredictionData) : Prop :=
  cropName d ≠ "" ∧ soilType d ≠ ""
  ∧ JS.truthy_number (FarmSize.value (farmSize d)) = true.

(** [x > 0] and [x <= y] on numbers *)
Definition positive (x : float) : Prop := PrimFloat.ltb 0 x = true.
Definition at_most (x y : float) : Prop := PrimFloat.leb x y = true.

(** The cells after an action, and after a page event. *)
Definition after (act : Act ()) (c : Component) : Component := state_of (act c).

(** The array [toggleFertilizer] computes from the selection and a name. *)
Definition toggled (xs : list string) (x : string) : list string :=
  if JS.includes xs x then filter (λ f, f ≠ x) xs else xs ++ [x].

(** Two arrays hold the same set of names. *)
Definition same_set (xs ys : list string) : Prop :=
  list_to_set xs =@{gset string} list_to_set ys.

(** The two copies of the fertilizer selection hold one duplicate-free array. *)
Definition selection_in_step (c : Component) : Prop :=
  selectedFertilizers c = fertilizersUsed (data c)
  ∧ NoDup (selectedFertilizers c).

(** No [fetch] was issued. *)
Definition no_fetch (log : list Effect) : Prop :=
  Forall (λ e, is_fetch e = false) log.

(** ** A platform to run examples on

    The number conversions are tabulated on the values the examples use. *)

Definition sample_parseFloat (s : string) : float :=
  if decide (s = "2") then 2%float
  else if decide (s = "-1") then (-1)%float
  else if decide (s = "6.5") then 6.5%float
  else nan.

Definition sample_toString (x : float) : string :=
  if PrimFloat.eqb x 6.5 then "6.5"
  else if PrimFloat.eqb x 28.6139 then "28.6139"
  else if PrimFloat.eqb x 77.209 then "77.209"
  else "NaN".

Definition sample_toFixed (x : float) (digits : nat) : string :=
  if PrimFloat.eqb x 28.6139 then "28.6139"
  else if PrimFloat.eqb x 77.209 then "77.2090"
  else "NaN".

Definition sample_platform (onLine geolocation : bool) : Platform :=
  {| parseFloat := sample_parseFloat;
     Number_toString := sample_toString;
     Number_toFixed := sample_toFixed;
     navigator_onLine := onLine;
     navigator_geolocation := geolocation |}.

Definition online_browser : Platform := sample_platform true true.
Definition offline_browser : Platform := sample_platform false true.
Definition browser_without_geolocation : Platform := sample_platform true false.

(** The page as [Index] mounts it: both callbacks log and return. *)
Definition Index_props : CropYieldPredictorProps :=
  {| onPredict := Some (λ _, returns); onSave := Some (λ _, returns) |}.

(** Three ways of filling in the form. *)
Definition rice_form : list Event :=
  [ input (crop_selected "Rice"); input (soilType_selected "Loamy");
    input (farmSize_value_typed "2"); input (soilPH_typed "6.5") ].

Definition form_without_crop : list Event :=
  [ input (soilType_selected "Loamy"); input (farmSize_value_typed "2") ].

Definition form_with_negative_size : list Event :=
  [ input (crop_selected "Rice"); input (soilType_selected "Loamy");
    input (farmSize_value_typed "-1") ].

(** The page of [Index] in the sample browser after the events [evs]. *)
Definition page_after (P : Platform) (evs : list Event) : Runtime :=
  (run P Index_props (mount P) evs).1.

(** ** Vocabulary of the lifecycle statements *)

Definition is_call_onPredict (e : Effect) : bool :=
  match e with
  | call_onPredict _ => true
  | _ => false
  end.

Definition is_destructive_toast (e : Effect) : bool :=
  match e with
  | toast {| toast_variant := Destructive |} => true
  | _ => false
  end.

(** The gate of [handlePredict] lets the form through. *)
Definition gate_passes (d : PredictionData) : bool :=
  JS.truthy_string (cropName d) && JS.truthy_string (soilType d)
  && JS.truthy_number (FarmSize.value (farmSize d)).

(** The reachability flag after the network events among [evs]. *)
Definition last_reachability (onLine : bool) (evs : list Event) : bool :=
  foldl (λ flag ev,
           match ev with
           | window_online => true
           | window_offline => false
           | _ => flag
           end) onLine evs.

(** What the number inputs can leave in the form: a size that is [0] or
    truthy, and a pH or nutrient level that is [null] or truthy. *)
Definition size_stored (v : float) : Prop :=
  v = 0%float ∨ JS.truthy_number v = true.

Definition level_stored (x : option float) : Prop :=
  match x with
  | None => True
  | Some v => JS.truthy_number v = true
  end.

Definition numbers_normalised (d : PredictionData) : Prop :=
  size_stored (FarmSize.value (farmSize d))
  ∧ level_stored (soilPH d) ∧ level_stored (nLevel d)
  ∧ level_stored (pLevel d) ∧ level_stored (kLevel d).

(** At most one [detectLocation] call is in flight, and the locating flag
    tells whether one is. *)
Definition single_flight (rt : Runtime) : Prop :=
  if isLocating (ui rt)
  then ∃ (call : nat) (at_ : Suspended), suspended rt = {[call := at_]}
  else suspended rt = ∅.

(** No location was ever detected and none is being detected. *)
Definition never_located (rt : Runtime) : Prop :=
  farmLocation (data (ui rt)) = None
  ∧ isLocating (ui rt) = false
  ∧ suspended rt = ∅.

(** The location [detectLocation] writes for a position. *)
Definition located (P : Platform) (latitude longitude : float) : FarmLocation.t :=
  FarmLocation.mk latitude longitude
    (Number_toFixed P latitude 4 +:+ ", " +:+ Number_toFixed P longitude 4).

(** The two requests of the enrichment of a position. *)
Definition enrichment_requests (P : Platform) (lat lon : float) : list Effect :=
  [ fetch ("/api/weather?lat=" +:+ Number_toString P lat
           +:+ "&lon=" +:+ Number_toString P lon);
    fetch ("/api/soil?lat=" +:+ Number_toString P lat
           +:+ "&lon=" +:+ Number_toString P lon) ].

(** A collaborator that throws on the form it is given. *)
Definition throwing_props : CropYieldPredictorProps :=
  {| onPredict := Some (λ _, throws); onSave := Some (λ _, throws) |}.

(** A page mounted without collaborators. *)
Definition no_collaborators : CropYieldPredictorProps :=
  {| onPredict := None; onSave := None |}.

(** New Delhi, as the geolocation of the examples reports it. *)
Definition new_delhi : PositionOutcome := position_resolved 28.6139 77.209.

(** The call [call] is over and the locating flag is down. *)
Definition call_ended (call : nat) (rt : Runtime) : Prop :=
  suspended rt !! call = None ∧ isLocating (ui rt) = false.

(** * Properties *)

(** ** Truthiness *)

Lemma truthy_string_spec (s : string) : JS.truthy_string s = true ↔ s ≠ "".
Proof. destruct s; simpl; split; congruence. Qed.

Lemma truthy_number_spec (x : float) :
  JS.truthy_number x = true ↔ PrimFloat.eqb x 0 = false ∧ PrimFloat.is_nan x = false.
Proof.
  unfold JS.truthy_number. rewrite negb_true_iff, orb_false_iff. tauto.
Qed.

(** A number greater than zero is neither a zero nor [NaN]. *)
Lemma positive_truthy (x : float) : positive x → JS.truthy_number x = true.
Proof.
  unfold positive. intros Hlt. apply truthy_number_spec.
  unfold PrimFloat.is_nan.
  rewrite FloatAxioms.ltb_spec in Hlt. rewrite !FloatAxioms.eqb_spec.
  change (Prim2SF 0) with (S754_zero false) in *.
  destruct (Prim2SF x) as [[]|[]| |[] m e]; simpl in *; try discriminate; auto.
  all: unfold SFeqb, SFcompare; rewrite Z.compare_refl, Pos.compare_refl; auto.
Qed.

Section Handlers.

Variable P : Platform.
Variable props : CropYieldPredictorProps.

(** ** [handlePredict] *)

Lemma handlePredict_rejects (c : Component) :
  ¬ required_fields_filled (data c) →
  on (handlePredict P props) c = (c, [toast missing_information], Normal ()).
Proof.
  intros Hno. unfold on, handlePredict.
  destruct (JS.truthy_string (cropName (data c))) eqn:Hcrop; [|done].
  destruct (JS.truthy_string (soilType (data c))) eqn:Hsoil; [|done].
  destruct (JS.truthy_number (FarmSize.value (farmSize (data c)))) eqn:Hsize; [|done].
  exfalso. apply Hno. repeat split; [by apply truthy_string_spec..|done].
Qed.

Lemma handlePredict_accepts (c : Component) :
  required_fields_filled (data c) →
  on (handlePredict P props) c =
    ({| language := language c; isOnline := isOnline c; isLoading := false;
        isLocating := isLocating c; data := data c;
        result := Some (mockResult P c);
        selectedFertilizers := selectedFertilizers c |},
     predict_log props (data c), Normal ()).
Proof.
  intros (Hcrop & Hsoil & Hsize). unfold on, handlePredict, predict_log.
  apply truthy_string_spec in Hcrop, Hsoil. rewrite Hcrop, Hsoil, Hsize. simpl.
  unfold optional_call.
  destruct (onPredict props) as [f|]; [destruct (f (data c))|]; reflexivity.
Qed.

Lemma required_fields_dec (d : PredictionData) :
  required_fields_filled d ∨ ¬ required_fields_filled d.
Proof.
  unfold required_fields_filled.
  destruct (decide (cropName d = "")), (decide (soilType d = "")),
    (JS.truthy_number (FarmSize.value (farmSize d))); intuition congruence.
Qed.

(** C1 (as amended).  The gate of [handlePredict] tests the three required
    fields for truthiness.  With [cropName] empty, [soilType] empty, or
    [farmSize.value] equal to zero or [NaN], the handler only raises the
    "Missing information" toast: no cell changes, the stored prediction
    included.  With both names non-empty and [farmSize.value > 0] the
    handler goes on and stores a prediction.  Whenever the handler goes on,
    both names are non-empty and [farmSize.value] is neither zero nor [NaN]. *)
Theorem handlePredict_validation_gate (c : Component) :
  let d := data c in
  let size := FarmSize.value (farmSize d) in
  (cropName d = "" ∨ soilType d = ""
   ∨ PrimFloat.eqb size 0 = true ∨ PrimFloat.is_nan size = true →
   on (handlePredict P props) c = (c, [toast missing_information], Normal ()))
  ∧ (cropName d ≠ "" ∧ soilType d ≠ "" ∧ positive size →
     result (after (on (handlePredict P props)) c) = Some (mockResult P c))
  ∧ (on (handlePredict P props) c ≠ (c, [toast missing_information], Normal ()) →
     cropName d ≠ "" ∧ soilType d ≠ ""
     ∧ PrimFloat.eqb size 0 = false ∧ PrimFloat.is_nan size = false).
Proof.
  intros d size. split; [|split].
  - intros Hbad. apply handlePredict_rejects.
    intros (Hcrop & Hsoil & Hsize). apply truthy_number_spec in Hsize.
    fold d size in Hcrop, Hsoil, Hsize. destruct Hsize.
    destruct Hbad as [?|[?|[?|?]]]; congruence.
  - intros (Hcrop & Hsoil & Hsize). unfold after.
    rewrite handlePredict_accepts; [done|].
    repeat split; [done..|]. by apply positive_truthy.
  - intros Hgoes. destruct (required_fields_dec d) as [(? & ? & Hsize)|Hno].
    + apply truthy_number_spec in Hsize. tauto.
    + destruct Hgoes. by apply handlePredict_rejects.
Qed.

(** C2.  In every state whose required fields pass the gate, [handlePredict]
    completes normally with the submitting flag cleared and stores a
    prediction whose confidence interval has [min <= max] and whose
    [isOffline] is the negation of the [isOnline] the handler was rendered
    with; the "Prediction error" toast appears only if the [onPredict]
    collaborator throws. *)
Theorem handlePredict_outcome (c : Component) :
  required_fields_filled (data c) →
  ∃ outcome : PredictionResult,
    result (after (on (handlePredict P props)) c) = Some outcome
    ∧ at_most (ConfidenceInterval.min (confidenceInterval outcome))
              (ConfidenceInterval.max (confidenceInterval outcome))
    ∧ isOffline outcome = Some (negb (isOnline c))
    ∧ isLoading (after (on (handlePredict P props)) c) = false
    ∧ completion_of (on (handlePredict P props) c) = Normal ()
    ∧ (toast prediction_error ∈ log_of (on (handlePredict P props) c) →
       ∃ f, onPredict props = Some f ∧ f (data c) = throws).
Proof.
  intros Hok. exists (mockResult P c). unfold after.
  rewrite (handlePredict_accepts c Hok). simpl.
  split_and!; try reflexivity.
  unfold log_of, predict_log; simpl. destruct (onPredict props) as [f|] eqn:Hf.
  - destruct (f (data c)) eqn:Hfd; [|by eauto].
    intros Hin. apply list_elem_of_singleton in Hin. discriminate.
  - intros Hin. by apply elem_of_nil in Hin.
Qed.

(** C10.  Every prediction stored by [handlePredict] has the same
    [predictedYield] (4.2 tonnes/hectare), the same [confidenceInterval]
    (3.8 to 4.6) and the same three recommendations in the same order; its
    [explanation] is fixed by [cropName] and [soilPH], its [isOffline] by
    [isOnline]. *)
Theorem handlePredict_fixed_result (c : Component) :
  required_fields_filled (data c) →
  ∃ outcome : PredictionResult,
    result (after (on (handlePredict P props)) c) = Some outcome
    ∧ predictedYield outcome = PredictedYield.mk 4.2 "tonnes/hectare"
    ∧ confidenceInterval outcome = ConfidenceInterval.mk 3.8 4.6
    ∧ recommendations outcome =
        [ Recommendation.mk "irrigation" "Optimize Irrigation"
            "Increase irrigation frequency by 20% during flowering stage"
            "droplets";
          Recommendation.mk "fertilization" "Nitrogen Boost"
            "Apply additional 15kg/ha nitrogen in the next 2 weeks"
            "zap";
          Recommendation.mk "pest" "Pest Monitoring"
            "Monitor for aphids and apply organic neem spray if needed"
            "bug" ]
    ∧ length (recommendations outcome) = 3
    ∧ isOffline outcome = Some (negb (isOnline c))
    ∧ ∀ c' outcome',
        required_fields_filled (data c') →
        result (after (on (handlePredict P props)) c') = Some outcome' →
        predictedYield outcome' = predictedYield outcome
        ∧ confidenceInterval outcome' = confidenceInterval outcome
        ∧ recommendations outcome' = recommendations outcome
        ∧ (cropName (data c') = cropName (data c) →
           soilPH (data c') = soilPH (data c) →
           explanation outcome' = explanation outcome)
        ∧ (isOnline c' = isOnline c → isOffline outcome' = isOffline outcome).
Proof.
  intros Hok. exists (mockResult P c). unfold after.
  rewrite (handlePredict_accepts c Hok). simpl.
  split_and!; try reflexivity.
  intros c' outcome' Hok'. rewrite (handlePredict_accepts c' Hok'). simpl.
  intros [= <-]. simpl. split_and!; try reflexivity.
  - by intros -> ->.
  - by intros ->.
Qed.

(** ** [handleSave] *)

Lemma handleSave_cells (c : Component) : after (on (handleSave props)) c = c.
Proof.
  unfold after, on, handleSave, optional_call.
  destruct (onSave props) as [f|]; [destruct (f (data c))|]; reflexivity.
Qed.

(** C3.  With an [onSave] collaborator, [handleSave] calls it exactly once,
    with the [data] of the current render as it is; it tests nothing before
    the call and changes no cell, whatever the form holds and whether the
    collaborator returns or throws. *)
Theorem handleSave_forwards_snapshot (rt : Runtime)
    (f : PredictionData → CallbackResult) :
  onSave props = Some f →
  let c := ui rt in
  List.filter is_call_onSave (log_of (on (handleSave props) c)) = [call_onSave (data c)]
  ∧ after (on (handleSave props)) c = c
  ∧ step P props rt click_save = (rt, log_of (on (handleSave props) c)).
Proof.
  intros Hf c. unfold step, dispatch. subst c. destruct rt as [c calls next].
  unfold after, on, handleSave, optional_call. rewrite Hf. simpl.
  destruct (f (data c)); done.
Qed.

End Handlers.

(** ** The form inputs *)

Section Fields.

Variable P : Platform.

Lemma updateField_other (u : FieldUpdate) (f : Field) (d : PredictionData) :
  target u ≠ f → read f (updateField P u d) = read f d.
Proof. destruct u, f; simpl; intros Hne; solve [reflexivity | by destruct Hne]. Qed.

Lemma updateField_seq_other (us : list FieldUpdate) (f : Field) :
  Forall (λ u, target u ≠ f) us →
  ∀ d, read f (foldl (λ prev u, updateField P u prev) d us) = read f d.
Proof.
  induction 1 as [|u us Hu _ IH]; intros d; simpl; [done|].
  rewrite IH. by apply updateField_other.
Qed.

(** C5.  After any sequence of form inputs, every attribute that none of
    them targets has the value it had before; the two attributes of
    [farmSize] are updated apart: typing a size keeps the unit, selecting a
    unit keeps the size. *)
Theorem updateField_no_clobber :
  (∀ (us : list FieldUpdate) (f : Field) (d : PredictionData),
     Forall (λ u, target u ≠ f) us →
     read f (foldl (λ prev u, updateField P u prev) d us) = read f d)
  ∧ (∀ (value : string) (d : PredictionData),
       FarmSize.unit (farmSize (updateField P (farmSize_value_typed value) d))
       = FarmSize.unit (farmSize d))
  ∧ (∀ (value : string) (d : PredictionData),
       FarmSize.value (farmSize (updateField P (farmSize_unit_selected value) d))
       = FarmSize.value (farmSize d)).
Proof.
  split_and!.
  - intros us f d Hus. by apply updateField_seq_other.
  - reflexivity.
  - reflexivity.
Qed.

End Fields.

(** ** The fertilizer selection *)

Lemma toggled_twice (xs : list string) (x : string) :
  same_set (toggled (toggled xs x) x) xs.
Proof.
  unfold same_set, toggled, JS.includes. apply set_eq. intros y.
  destruct (decide (x ∈ xs)) as [Hin|Hout].
  - rewrite (bool_decide_eq_true_2 _ Hin).
    rewrite bool_decide_eq_false_2 by (rewrite list_elem_of_filter; tauto).
    rewrite !elem_of_list_to_set, elem_of_app, list_elem_of_filter, list_elem_of_singleton.
    split; [intros [[_ ?]| ->]; done|].
    intros Hy. destruct (decide (y = x)); tauto.
  - rewrite (bool_decide_eq_false_2 _ Hout).
    rewrite bool_decide_eq_true_2 by (rewrite elem_of_app, list_elem_of_singleton; tauto).
    rewrite !elem_of_list_to_set, list_elem_of_filter, elem_of_app, list_elem_of_singleton.
    split; [tauto|]. intros Hy. split; [congruence|tauto].
Qed.

Lemma toggled_NoDup (xs : list string) (x : string) :
  NoDup xs → NoDup (toggled xs x).
Proof.
  intros Hnd. unfold toggled, JS.includes. case_bool_decide as Hin.
  - by apply NoDup_filter.
  - apply NoDup_app. split_and!; [done| |apply NoDup_singleton].
    intros y Hy ->%list_elem_of_singleton. done.
Qed.

Lemma toggleFertilizer_cells (c : Component) (x : string) :
  after (on (λ r, toggleFertilizer r x)) c =
    {| language := language c; isOnline := isOnline c; isLoading := isLoading c;
       isLocating := isLocating c;
       data := with_fertilizersUsed (toggled (selectedFertilizers c) x) (data c);
       result := result c;
       selectedFertilizers := toggled (selectedFertilizers c) x |}.
Proof. reflexivity. Qed.

(** ** Page events *)

Ltac act_unfold :=
  unfold after, on, state_of, log_of, completion_of, handlePredict, handleSave,
    toggleFertilizer, detectLocation, detectLocation_located,
    detectLocation_enriched, locating, try_catch_finally, optional_call,
    fetchWeatherData, fetchSoilData, fetcher_settled, emit, throw, await,
    setLanguage, setIsOnline, setIsLoading, setIsLocating, setData, setResult,
    setSelectedFertilizers, mbind, Act_bind, mret, Act_ret in *.

Section Page.

Variable P : Platform.
Variable props : CropYieldPredictorProps.

Lemma run_cons (rt : Runtime) (ev : Event) (evs : list Event) :
  (run P props rt (ev :: evs)).1 = (run P props (step P props rt ev).1 evs).1.
Proof.
  simpl. destruct (step P props rt ev) as [rt1 log1]. simpl.
  by destruct (run P props rt1 evs).
Qed.

Lemma run_nil (rt : Runtime) : (run P props rt []).1 = rt.
Proof. reflexivity. Qed.

Lemma run_snoc (rt : Runtime) (evs : list Event) (ev : Event) :
  (run P props rt (evs ++ [ev])).1 = (step P props (run P props rt evs).1 ev).1.
Proof.
  revert rt. induction evs as [|ev' evs IH]; intros rt.
  - rewrite app_nil_l, run_cons. done.
  - rewrite <- app_comm_cons, !run_cons. apply IH.
Qed.

(** A property of the cells that every step keeps holds along every run. *)
Lemma run_invariant (I : Runtime → Prop) :
  (∀ rt ev, I rt → I (step P props rt ev).1) →
  ∀ evs rt, I rt → I (run P props rt evs).1.
Proof.
  intros Hstep. induction evs as [|ev evs IH]; intros rt Hrt; [done|].
  rewrite run_cons. apply IH, Hstep, Hrt.
Qed.

Lemma ui_dispatch (act : Act ()) (rt : Runtime) :
  ui (dispatch act rt).1 = after act (ui rt).
Proof.
  unfold dispatch, after, state_of.
  destruct (act (ui rt)) as [[c log] [[]|e|k]]; reflexivity.
Qed.

Lemma ui_resume (call : nat) (act : Act ()) (rt : Runtime) :
  ui (resume call act rt).1 = after act (ui rt).
Proof.
  unfold resume, after, state_of.
  destruct (act (ui rt)) as [[c log] [[]|e|k]]; reflexivity.
Qed.

(** *** The two copies of the fertilizer selection *)

Lemma updateField_fertilizersUsed (u : FieldUpdate) (d : PredictionData) :
  fertilizersUsed (updateField P u d) = fertilizersUsed d.
Proof. by destruct u. Qed.

(** [toggleFertilizer] writes the same array to both copies; no other event
    writes either. *)
Lemma step_selection (rt : Runtime) (ev : Event) :
  let c := ui rt in
  let c' := ui (step P props rt ev).1 in
  match ev with
  | click_fertilizer x =>
      selectedFertilizers c' = toggled (selectedFertilizers c) x
      ∧ fertilizersUsed (data c') = toggled (selectedFertilizers c) x
  | _ =>
      selectedFertilizers c' = selectedFertilizers c
      ∧ fertilizersUsed (data c') = fertilizersUsed (data c)
  end.
Proof.
  destruct rt as [c calls next]. simpl.
  destruct ev as [| | |u|x| |call o|call who o| |]; unfold step; simpl;
    try (rewrite ui_dispatch; simpl).
  - done.
  - done.
  - done.
  - split; [done|]. apply updateField_fertilizersUsed.
  - done.
  - destruct (isLocating c); [done|]. rewrite ui_dispatch. simpl.
    act_unfold. by destruct (navigator_geolocation P).
  - destruct (calls !! call) as [[b|name w s]|]; [|done..].
    rewrite ui_resume. simpl. act_unfold. destruct o, b; done.
  - destruct who.
    + destruct (calls !! call) as [[b|name [] s]|]; [done..| |done].
      rewrite ui_resume. simpl. act_unfold. destruct o, s; done.
    + destruct (calls !! call) as [[b|name w []]|]; [done..| |done].
      rewrite ui_resume. simpl. act_unfold. destruct o, w; done.
  - destruct (isLoading c); [done|]. rewrite ui_dispatch. simpl.
    unfold after.
    destruct (required_fields_dec (data c)) as [Hok|Hno].
    + by rewrite (handlePredict_accepts P props c Hok).
    + by rewrite (handlePredict_rejects P props c Hno).
  - by rewrite handleSave_cells.
Qed.

Lemma step_selection_in_step (rt : Runtime) (ev : Event) :
  selection_in_step (ui rt) → selection_in_step (ui (step P props rt ev).1).
Proof.
  unfold selection_in_step. intros [Heq Hnd].
  pose proof (step_selection rt ev) as Hsel. simpl in Hsel.
  destruct ev; destruct Hsel as [Hs Hd]; rewrite Hs, Hd; try done.
  split; [done|]. by apply toggled_NoDup.
Qed.

Lemma mount_selection_in_step : selection_in_step (ui (mount P)).
Proof. split; [done|]. apply NoDup_nil_2. Qed.

(** C9.  The two copies of the fertilizer selection, the
    [selectedFertilizers] cell and the [fertilizersUsed] field of [data],
    hold the same array after every run of the page from its mounting;
    [toggleFertilizer] writes one array to both and no other event writes
    either. *)
Theorem fertilizer_copies_agree :
  (∀ evs : list Event,
     let c := ui (run P props (mount P) evs).1 in
     selectedFertilizers c = fertilizersUsed (data c))
  ∧ (∀ (rt : Runtime) (ev : Event),
       let c := ui rt in
       let c' := ui (step P props rt ev).1 in
       match ev with
       | click_fertilizer x =>
           selectedFertilizers c' = toggled (selectedFertilizers c) x
           ∧ fertilizersUsed (data c') = toggled (selectedFertilizers c) x
       | _ =>
           selectedFertilizers c' = selectedFertilizers c
           ∧ fertilizersUsed (data c') = fertilizersUsed (data c)
       end).
Proof.
  split.
  - intros evs.
    apply (run_invariant (λ rt, selection_in_step (ui rt))
             step_selection_in_step evs (mount P)).
    apply mount_selection_in_step.
  - apply step_selection.
Qed.

(** C4.  Two [toggleFertilizer] calls in a row with the same name leave
    [fertilizersUsed] with the set of names it had: in every state whose two
    copies of the selection agree, and so after every run of the page from its
    mounting; and after every such run [fertilizersUsed] has no name twice. *)
Theorem toggleFertilizer_involution_no_duplicates :
  (∀ (c : Component) (x : string),
     selectedFertilizers c = fertilizersUsed (data c) →
     let toggle := on (λ r, toggleFertilizer r x) in
     same_set (fertilizersUsed (data (after toggle (after toggle c))))
              (fertilizersUsed (data c)))
  ∧ (∀ (evs : list Event) (x : string),
       let twice := [click_fertilizer x; click_fertilizer x] in
       same_set
         (fertilizersUsed (data (ui (run P props (mount P) (evs ++ twice)).1)))
         (fertilizersUsed (data (ui (run P props (mount P) evs).1))))
  ∧ (∀ evs : list Event,
       NoDup (fertilizersUsed (data (ui (run P props (mount P) evs).1)))).
Proof.
  assert (Hinv : ∀ evs, selection_in_step (ui (run P props (mount P) evs).1)).
  { intros evs.
    apply (run_invariant (λ rt, selection_in_step (ui rt))
             step_selection_in_step evs (mount P)).
    apply mount_selection_in_step. }
  split_and!.
  - intros c x Hsync toggle. subst toggle.
    rewrite !toggleFertilizer_cells. simpl. rewrite <- Hsync.
    apply toggled_twice.
  - intros evs x twice. subst twice.
    change (evs ++ [click_fertilizer x; click_fertilizer x])
      with (evs ++ [click_fertilizer x] ++ [click_fertilizer x]).
    rewrite app_assoc, !run_snoc.
    destruct (Hinv evs) as [Hsync _].
    set (rt := (run P props (mount P) evs).1) in *.
    destruct (step_selection (step P props rt (click_fertilizer x)).1
                (click_fertilizer x)) as [_ ->].
    destruct (step_selection rt (click_fertilizer x)) as [-> _].
    rewrite <- Hsync. apply toggled_twice.
  - intros evs. destruct (Hinv evs) as [Heq Hnd]. by rewrite <- Heq.
Qed.

End Page.

(** ** [detectLocation] *)

Section Locating.

Variable P : Platform.
Variable props : CropYieldPredictorProps.

(** *** Suspended calls across a step *)

Lemma dispatch_suspended (act : Act ()) (rt : Runtime) (k : nat) (s : Suspended) :
  suspended rt !! k = Some s → k < next_call rt →
  suspended (dispatch act rt).1 !! k = Some s
  ∧ k < next_call (dispatch act rt).1.
Proof.
  intros Hk Hlt. unfold dispatch.
  destruct (act (ui rt)) as [[c log] [[]|e|t]]; simpl; [done..|].
  rewrite lookup_insert_ne by lia. split; [done|lia].
Qed.

Lemma dispatch_is_Some (act : Act ()) (rt : Runtime) (k : nat) :
  is_Some (suspended rt !! k) → is_Some (suspended (dispatch act rt).1 !! k).
Proof.
  intros Hk. unfold dispatch.
  destruct (act (ui rt)) as [[c log] [[]|e|t]]; simpl; [done..|].
  rewrite lookup_insert. by case_decide.
Qed.

Lemma resume_other (call : nat) (act : Act ()) (rt : Runtime) (k : nat) :
  call ≠ k →
  suspended (resume call act rt).1 !! k = suspended rt !! k
  ∧ next_call (resume call act rt).1 = next_call rt.
Proof.
  intros Hne. unfold resume.
  destruct (act (ui rt)) as [[c log] [[]|e|t]]; simpl;
    by rewrite ?lookup_delete_ne, ?lookup_insert_ne.
Qed.

(** A step other than the settlement of the position request of call [k]
    leaves that call where it is. *)
Lemma step_keeps_awaiting_position (rt : Runtime) (ev : Event) (k : nat) (b : bool) :
  suspended rt !! k = Some (awaiting_position b) → k < next_call rt →
  (∀ o, ev ≠ position_settled k o) →
  suspended (step P props rt ev).1 !! k = Some (awaiting_position b)
  ∧ k < next_call (step P props rt ev).1.
Proof.
  intros Hk Hlt Hev.
  destruct ev as [| | |u|x| |call o|call who o| |]; unfold step;
    try (by apply dispatch_suspended).
  - destruct (isLocating (ui rt)); [done|]. by apply dispatch_suspended.
  - destruct (decide (call = k)) as [->|Hne]; [by destruct (Hev o)|].
    destruct (suspended rt !! call) as [[b'|name w s]|]; [|done..].
    destruct (resume_other call (detectLocation_located P b' o) rt k Hne) as [-> ->].
    done.
  - destruct (decide (call = k)) as [->|Hne].
    { rewrite Hk. by destruct who. }
    destruct who.
    + destruct (suspended rt !! call) as [[b'|name [] s]|]; [done..| |done].
      match goal with |- context [resume call ?act rt] =>
        destruct (resume_other call act rt k Hne) as [-> ->] end.
      done.
    + destruct (suspended rt !! call) as [[b'|name w []]|]; [done..| |done].
      match goal with |- context [resume call ?act rt] =>
        destruct (resume_other call act rt k Hne) as [-> ->] end.
      done.
  - destruct (isLoading (ui rt)); [done|]. by apply dispatch_suspended.
Qed.

Lemma run_keeps_awaiting_position (evs : list Event) (k : nat) (b : bool) :
  Forall (λ ev, ∀ o, ev ≠ position_settled k o) evs →
  ∀ rt, suspended rt !! k = Some (awaiting_position b) → k < next_call rt →
  suspended (run P props rt evs).1 !! k = Some (awaiting_position b).
Proof.
  induction 1 as [|ev evs Hev _ IH]; intros rt Hk Hlt; [done|].
  rewrite run_cons.
  destruct (step_keeps_awaiting_position rt ev k b Hk Hlt Hev). by apply IH.
Qed.

(** *** The start of a call *)

Lemma detectLocation_unsupported (c : Component) :
  navigator_geolocation P = false →
  on (detectLocation P) c = (c, [toast location_not_supported], Normal ()).
Proof. intros Hno. unfold on, detectLocation. by rewrite Hno. Qed.

Lemma detectLocation_starts (c : Component) :
  navigator_geolocation P = true →
  on (detectLocation P) c =
    ({| language := language c; isOnline := isOnline c;
        isLoading := isLoading c; isLocating := true; data := data c;
        result := result c; selectedFertilizers := selectedFertilizers c |},
     [], Await (awaiting_position (isOnline c))).
Proof. intros Hyes. unfold on, detectLocation. by rewrite Hyes. Qed.

Lemma click_detect_data (rt : Runtime) :
  data (ui (step P props rt click_detect).1) = data (ui rt).
Proof.
  unfold step. destruct (isLocating (ui rt)); [done|].
  rewrite ui_dispatch. unfold after.
  destruct (navigator_geolocation P) eqn:Hgeo.
  - by rewrite detectLocation_starts.
  - by rewrite detectLocation_unsupported.
Qed.

(** *** The position request fails *)

Lemma detectLocation_rejected (b : bool) (e : GeolocationPositionError)
    (c : Component) :
  detectLocation_located P b (position_rejected e) c =
    ({| language := language c; isOnline := isOnline c;
        isLoading := isLoading c; isLocating := false; data := data c;
        result := result c; selectedFertilizers := selectedFertilizers c |},
     [toast location_error], Normal ()).
Proof. reflexivity. Qed.

Lemma position_rejected_data (rt : Runtime) (k : nat)
    (e : GeolocationPositionError) :
  data (ui (step P props rt (position_settled k (position_rejected e))).1)
  = data (ui rt).
Proof.
  unfold step. destruct (suspended rt !! k) as [[b|name w s]|]; [|done..].
  rewrite ui_resume. unfold after. by rewrite detectLocation_rejected.
Qed.

(** C7.  A [detectLocation] call that fails writes nothing to [data]: not
    when the browser has no geolocation (a toast is all that happens), not
    when the call starts, and not when its position request is rejected,
    which ends the call with the "Location error" toast.  So the location
    after a failed call is the location before it. *)
Theorem detectLocation_failure_keeps_location :
  (navigator_geolocation P = false →
   ∀ c, on (detectLocation P) c = (c, [toast location_not_supported], Normal ()))
  ∧ (∀ rt, data (ui (step P props rt click_detect).1) = data (ui rt))
  ∧ (∀ rt k e,
       data (ui (step P props rt (position_settled k (position_rejected e))).1)
       = data (ui rt))
  ∧ (∀ rt k b e,
       suspended rt !! k = Some (awaiting_position b) →
       let after_failure := step P props rt (position_settled k (position_rejected e)) in
       suspended after_failure.1 !! k = None
       ∧ after_failure.2 = [toast location_error])
  ∧ (∀ rt e,
       let failed_call :=
         [click_detect; position_settled (next_call rt) (position_rejected e)] in
       farmLocation (data (ui (run P props rt failed_call).1))
       = farmLocation (data (ui rt))).
Proof.
  split_and!.
  - intros Hno c. by apply detectLocation_unsupported.
  - apply click_detect_data.
  - apply position_rejected_data.
  - intros rt k b e Hk. simpl. unfold step. rewrite Hk.
    unfold resume. rewrite detectLocation_rejected. simpl.
    split; [apply lookup_delete_eq|done].
  - intros rt e failed_call. subst failed_call.
    rewrite !run_cons, run_nil.
    by rewrite position_rejected_data, click_detect_data.
Qed.

(** *** The locating flag *)

(** A step that ends a suspended call leaves the locating flag false. *)
Lemma ended_call_released (rt : Runtime) (ev : Event) (k : nat) :
  is_Some (suspended rt !! k) →
  suspended (step P props rt ev).1 !! k = None →
  isLocating (ui (step P props rt ev).1) = false.
Proof.
  intros Hk Hdone.
  assert (Hstill : ∀ act, suspended (dispatch act rt).1 !! k = None → False).
  { intros act Hnone. apply (dispatch_is_Some act) in Hk.
    rewrite Hnone in Hk. by destruct Hk. }
  assert (Hidle : suspended (rt, @nil Effect).1 !! k = None → False).
  { simpl. intros Hnone. rewrite Hnone in Hk. by destruct Hk. }
  assert (Hother : ∀ call act, call ≠ k →
            suspended (resume call act rt).1 !! k = None → False).
  { intros call act Hne Hnone.
    destruct (resume_other call act rt k Hne) as [Heq _].
    rewrite Heq in Hnone. auto. }
  destruct ev as [| | |u|x| |call o|call who o| |]; unfold step in *;
    try (by destruct (Hstill _ Hdone)).
  - destruct (isLocating (ui rt)); [by destruct Hidle|].
    by destruct (Hstill _ Hdone).
  - destruct (suspended rt !! call) as [[b|name w s]|] eqn:Hcall;
      [|by destruct Hidle..].
    destruct (decide (call = k)) as [->|Hne]; [|by destruct (Hother _ _ Hne Hdone)].
    revert Hdone. unfold resume. destruct o as [lat lon|e], b; simpl.
    + rewrite lookup_insert_eq. done.
    + done.
    + done.
    + done.
  - destruct (decide (call = k)) as [->|Hne].
    + destruct who.
      * destruct (suspended rt !! k) as [[b|name [] s]|] eqn:Hcall;
          [by destruct Hidle..| |by destruct Hidle].
        revert Hdone. unfold resume.
        destruct o, s; simpl; rewrite ?lookup_insert_eq; done.
      * destruct (suspended rt !! k) as [[b|name w []]|] eqn:Hcall;
          [by destruct Hidle..| |by destruct Hidle].
        revert Hdone. unfold resume.
        destruct o, w; simpl; rewrite ?lookup_insert_eq; done.
    + destruct who.
      * destruct (suspended rt !! call) as [[b|name [] s]|] eqn:Hcall;
          [by destruct Hidle..| |by destruct Hidle].
        by destruct (Hother _ _ Hne Hdone).
      * destruct (suspended rt !! call) as [[b|name w []]|] eqn:Hcall;
          [by destruct Hidle..| |by destruct Hidle].
        by destruct (Hother _ _ Hne Hdone).
  - destruct (isLoading (ui rt)); [by destruct Hidle|].
    by destruct (Hstill _ Hdone).
Qed.

(** The start of a call: past the capability check the call is suspended at
    its position request, with the locating flag up. *)
Lemma click_detect_suspends (rt : Runtime) :
  isLocating (ui rt) = false →
  navigator_geolocation P = true →
  suspended (step P props rt click_detect).1 !! next_call rt
  = Some (awaiting_position (isOnline (ui rt)))
  ∧ isLocating (ui (step P props rt click_detect).1) = true.
Proof.
  intros Hidle Hgeo. unfold step, dispatch. rewrite Hidle.
  rewrite (detectLocation_starts _ Hgeo). simpl.
  by rewrite lookup_insert_eq.
Qed.

Lemma rejected_position_ends_call (rt : Runtime) (k : nat) (b : bool)
    (e : GeolocationPositionError) :
  suspended rt !! k = Some (awaiting_position b) →
  call_ended k (step P props rt (position_settled k (position_rejected e))).1.
Proof.
  intros Hcall. unfold call_ended, step. rewrite Hcall.
  unfold resume. rewrite detectLocation_rejected. simpl.
  by rewrite lookup_delete_eq.
Qed.

Lemma offline_position_ends_call (rt : Runtime) (k : nat) (lat lon : float) :
  suspended rt !! k = Some (awaiting_position false) →
  call_ended k (step P props rt (position_settled k (position_resolved lat lon))).1.
Proof.
  intros Hcall. unfold call_ended, step. rewrite Hcall.
  unfold resume. act_unfold. simpl. by rewrite lookup_delete_eq.
Qed.

Lemma online_position_awaits_enrichment (rt : Runtime) (k : nat) (lat lon : float) :
  suspended rt !! k = Some (awaiting_position true) →
  ∃ name,
    suspended (step P props rt (position_settled k (position_resolved lat lon))).1 !! k
    = Some (awaiting_enrichment name false false).
Proof.
  intros Hcall. unfold step. rewrite Hcall.
  unfold resume. act_unfold. simpl. rewrite lookup_insert_eq. by eexists.
Qed.

Lemma first_fetcher_keeps_waiting (rt : Runtime) (k : nat) (name : string)
    (o : FetchOutcome) :
  suspended rt !! k = Some (awaiting_enrichment name false false) →
  suspended (step P props rt (fetcher_done k Weather o)).1 !! k
  = Some (awaiting_enrichment name true false)
  ∧ suspended (step P props rt (fetcher_done k Soil o)).1 !! k
    = Some (awaiting_enrichment name false true).
Proof.
  intros Hcall. unfold step. rewrite Hcall.
  unfold resume. act_unfold. destruct o; simpl; by rewrite !lookup_insert_eq.
Qed.

Lemma last_fetcher_ends_call (rt : Runtime) (k : nat) (name : string)
    (o : FetchOutcome) :
  (suspended rt !! k = Some (awaiting_enrichment name false true) →
   call_ended k (step P props rt (fetcher_done k Weather o)).1)
  ∧ (suspended rt !! k = Some (awaiting_enrichment name true false) →
     call_ended k (step P props rt (fetcher_done k Soil o)).1).
Proof.
  split; intros Hcall; unfold call_ended, step; rewrite Hcall;
    unfold resume; act_unfold; destruct o; simpl; by rewrite lookup_delete_eq.
Qed.

Lemma both_fetchers_end_call (rt : Runtime) (k : nat) (name : string)
    (weather soil : FetchOutcome) :
  suspended rt !! k = Some (awaiting_enrichment name false false) →
  call_ended k
    (run P props rt [fetcher_done k Weather weather; fetcher_done k Soil soil]).1
  ∧ call_ended k
      (run P props rt [fetcher_done k Soil soil; fetcher_done k Weather weather]).1.
Proof.
  intros Hcall.
  destruct (first_fetcher_keeps_waiting rt k name weather Hcall) as [Hweather _].
  destruct (first_fetcher_keeps_waiting rt k name soil Hcall) as [_ Hsoil].
  rewrite !run_cons, !run_nil. split.
  - by apply (last_fetcher_ends_call _ k name soil).
  - by apply (last_fetcher_ends_call _ k name weather).
Qed.

(** C8.  A [detectLocation] call that got past the capability check is
    suspended with the locating flag up, and however it goes on it ends with
    the locating flag false: when its position request is rejected; when its
    position arrives and the call was started offline; and, for a call
    started online, when the second of the two enrichment fetchers has
    settled, in either order and each with a body or with an error.  No step
    ends a suspended call and leaves the flag up. *)
Theorem detectLocation_releases_flag (rt : Runtime) (k : nat) :
  (isLocating (ui rt) = false →
   navigator_geolocation P = true →
   suspended (step P props rt click_detect).1 !! next_call rt
   = Some (awaiting_position (isOnline (ui rt)))
   ∧ isLocating (ui (step P props rt click_detect).1) = true)
  ∧ (∀ ev,
       is_Some (suspended rt !! k) →
       suspended (step P props rt ev).1 !! k = None →
       isLocating (ui (step P props rt ev).1) = false)
  ∧ (∀ b e,
       suspended rt !! k = Some (awaiting_position b) →
       call_ended k (step P props rt (position_settled k (position_rejected e))).1)
  ∧ (∀ lat lon,
       suspended rt !! k = Some (awaiting_position false) →
       call_ended k
         (step P props rt (position_settled k (position_resolved lat lon))).1)
  ∧ (∀ lat lon weather soil,
       suspended rt !! k = Some (awaiting_position true) →
       let arrived := position_settled k (position_resolved lat lon) in
       call_ended k
         (run P props rt
            [arrived; fetcher_done k Weather weather; fetcher_done k Soil soil]).1
       ∧ call_ended k
           (run P props rt
              [arrived; fetcher_done k Soil soil; fetcher_done k Weather weather]).1)
  ∧ (∀ name weather soil,
       suspended rt !! k = Some (awaiting_enrichment name false false) →
       call_ended k
         (run P props rt
            [fetcher_done k Weather weather; fetcher_done k Soil soil]).1
       ∧ call_ended k
           (run P props rt
              [fetcher_done k Soil soil; fetcher_done k Weather weather]).1)
  ∧ (∀ name weather,
       suspended rt !! k = Some (awaiting_enrichment name false true) →
       call_ended k (step P props rt (fetcher_done k Weather weather)).1)
  ∧ (∀ name soil,
       suspended rt !! k = Some (awaiting_enrichment name true false) →
       call_ended k (step P props rt (fetcher_done k Soil soil)).1).
Proof.
  split_and!.
  - apply click_detect_suspends.
  - intros ev. apply ended_call_released.
  - intros b e. apply rejected_position_ends_call.
  - intros lat lon. apply offline_position_ends_call.
  - intros lat lon weather soil Hcall arrived. subst arrived.
    destruct (online_position_awaits_enrichment rt k lat lon Hcall)
      as [name Hwaiting].
    rewrite !(run_cons _ _ rt).
    by apply (both_fetchers_end_call _ k name).
  - intros name weather soil. apply both_fetchers_end_call.
  - intros name weather. apply last_fetcher_ends_call.
  - intros name soil. apply last_fetcher_ends_call.
Qed.

(** *** Enrichment *)

Lemma detectLocation_located_offline (lat lon : float) (c : Component) :
  log_of (detectLocation_located P false (position_resolved lat lon) c) =
    [toast (location_detected
              (Number_toFixed P lat 4 +:+ ", " +:+ Number_toFixed P lon 4))].
Proof. reflexivity. Qed.

(** C6 (as amended).  A [detectLocation] call started from a render whose
    [isOnline] is false issues no [fetch]: not when it starts and not when
    its position request is resolved, whatever events (changes of the
    reachability flag included) come in between. *)
Theorem detectLocation_offline_no_enrichment (rt : Runtime) (evs : list Event)
    (lat lon : float) :
  isOnline (ui rt) = false →
  isLocating (ui rt) = false →
  navigator_geolocation P = true →
  let call := next_call rt in
  Forall (λ ev, ∀ o, ev ≠ position_settled call o) evs →
  let started := step P props rt click_detect in
  let waiting := (run P props started.1 evs).1 in
  suspended started.1 !! call = Some (awaiting_position false)
  ∧ no_fetch started.2
  ∧ no_fetch (step P props waiting
                (position_settled call (position_resolved lat lon))).2.
Proof.
  intros Hoff Hidle Hgeo call Hevs started waiting.
  assert (Hstart : suspended started.1 !! call = Some (awaiting_position false)
                   ∧ call < next_call started.1 ∧ started.2 = []).
  { subst started call. unfold step, dispatch. rewrite Hidle.
    rewrite (detectLocation_starts _ Hgeo), Hoff. simpl.
    rewrite lookup_insert_eq. split_and!; [done|lia|done]. }
  destruct Hstart as (Hcall & Hlt & Hlog).
  split_and!; [done|rewrite Hlog; constructor|].
  pose proof (run_keeps_awaiting_position evs call false Hevs _ Hcall Hlt) as Hw.
  fold waiting in Hw. unfold step. rewrite Hw. unfold resume.
  pose proof (detectLocation_located_offline lat lon (ui waiting)) as Hl.
  unfold log_of in Hl.
  destruct (detectLocation_located P false (position_resolved lat lon) (ui waiting))
    as [[c log] r]. simpl in Hl. subst log.
  destruct r; simpl; repeat constructor.
Qed.

End Locating.

(** * The statements at work *)

(** ** C1 *)

(** The form of the example: no crop, soil "Loamy", size 2.  The gate rejects
    it and nothing is stored. *)
Lemma handlePredict_validation_gate_witness :
  let c := ui (page_after online_browser form_without_crop) in
  cropName (data c) = ""
  ∧ result c = None
  ∧ on (handlePredict online_browser Index_props) c
    = (c, [toast missing_information], Normal ()).
Proof.
  intros c. split_and!; [reflexivity..|].
  apply (handlePredict_validation_gate online_browser Index_props c).
  left. reflexivity.
Defined.

(** As stated, C1 fails on a negative size: the form "Rice", "Loamy", -1 has a
    [farmSize.value] that is not greater than 0, and yet [handlePredict] raises
    no validation toast and stores a prediction where there was none. *)
Lemma negative_size_passes_the_gate :
  let c := ui (page_after online_browser form_with_negative_size) in
  cropName (data c) = "Rice"
  ∧ soilType (data c) = "Loamy"
  ∧ FarmSize.value (farmSize (data c)) = (-1)%float
  ∧ ¬ positive (FarmSize.value (farmSize (data c)))
  ∧ result c = None
  ∧ result (after (on (handlePredict online_browser Index_props)) c)
    = Some (mockResult online_browser c)
  ∧ result (after (on (handlePredict online_browser Index_props)) c) ≠ result c
  ∧ log_of (on (handlePredict online_browser Index_props) c)
    = [call_onPredict (data c)].
Proof.
  intros c. split_and!; try reflexivity.
  - unfold positive. vm_compute. discriminate.
  - discriminate.
Qed.

(** ** C2 *)

Lemma handlePredict_outcome_witness :
  let c := ui (page_after online_browser rice_form) in
  required_fields_filled (data c)
  ∧ ∃ outcome : PredictionResult,
      result (after (on (handlePredict online_browser Index_props)) c) = Some outcome
      ∧ at_most (ConfidenceInterval.min (confidenceInterval outcome))
                (ConfidenceInterval.max (confidenceInterval outcome))
      ∧ isOffline outcome = Some false.
Proof.
  intros c.
  assert (Hok : required_fields_filled (data c)).
  { split_and!; [discriminate..|reflexivity]. }
  split; [exact Hok|].
  destruct (handlePredict_outcome online_browser Index_props c Hok)
    as (outcome & Hres & Hci & Hoff & _).
  exists outcome. split_and!; [exact Hres|exact Hci|exact Hoff].
Defined.

(** ** C3 *)

(** Saving the empty form of a page that was just mounted. *)
Lemma handleSave_forwards_snapshot_witness :
  let rt := mount online_browser in
  onSave Index_props = Some (λ _, returns)
  ∧ step online_browser Index_props rt click_save
    = (rt, [call_onSave (data (ui rt)); toast data_saved]).
Proof.
  intros rt. split; [reflexivity|].
  destruct (handleSave_forwards_snapshot online_browser Index_props rt
              (λ _, returns) eq_refl) as (_ & _ & Hstep).
  exact Hstep.
Defined.

(** ** C4 *)

Lemma toggleFertilizer_involution_no_duplicates_witness :
  let c := ui (page_after online_browser [click_fertilizer "Urea"; click_fertilizer "DAP"]) in
  let toggle := on (λ r, toggleFertilizer r "Urea") in
  selectedFertilizers c = fertilizersUsed (data c)
  ∧ fertilizersUsed (data c) = ["Urea"; "DAP"]
  ∧ fertilizersUsed (data (after toggle c)) = ["DAP"]
  ∧ fertilizersUsed (data (after toggle (after toggle c))) = ["DAP"; "Urea"]
  ∧ same_set (fertilizersUsed (data (after toggle (after toggle c))))
             (fertilizersUsed (data c)).
Proof.
  intros c toggle. split_and!; [reflexivity..|].
  destruct (toggleFertilizer_involution_no_duplicates online_browser Index_props)
    as (Htwice & _).
  apply (Htwice c "Urea"). reflexivity.
Defined.

(** ** C5 *)

Lemma updateField_no_clobber_witness :
  let us := [farmSize_value_typed "2"; crop_selected "Rice"; soilPH_typed "6.5"] in
  let d := data (initial online_browser) in
  Forall (λ u, target u ≠ f_farmSize_unit) us
  ∧ read f_farmSize_unit (foldl (λ prev u, updateField online_browser u prev) d us)
    = v_string "Hectares".
Proof.
  intros us d.
  assert (Hus : Forall (λ u, target u ≠ f_farmSize_unit) us).
  { repeat constructor; discriminate. }
  split; [exact Hus|].
  rewrite (proj1 (updateField_no_clobber online_browser) us f_farmSize_unit d Hus).
  reflexivity.
Defined.

(** ** C6 *)

(** A call started offline; the browser comes back online before the position
    arrives. *)
Lemma detectLocation_offline_no_enrichment_witness :
  let rt := mount offline_browser in
  let waiting :=
    (run offline_browser Index_props
       (step offline_browser Index_props rt click_detect).1 [window_online]).1 in
  isOnline (ui rt) = false
  ∧ isOnline (ui waiting) = true
  ∧ no_fetch (step offline_browser Index_props waiting
                (position_settled 0 (position_resolved 28.6139 77.209))).2.
Proof.
  intros rt waiting. split_and!; [reflexivity..|].
  apply (detectLocation_offline_no_enrichment offline_browser Index_props rt
           [window_online] 28.6139 77.209); try reflexivity.
  repeat constructor; discriminate.
Defined.

(** As stated, C6 fails: a call started online still runs both fetchers when
    the position arrives, although the reachability flag has become false. *)
Lemma call_started_online_fetches_offline :
  let rt := page_after online_browser [click_detect; window_offline] in
  suspended rt !! 0 = Some (awaiting_position true)
  ∧ isOnline (ui rt) = false
  ∧ (step online_browser Index_props rt
       (position_settled 0 (position_resolved 28.6139 77.209))).2
    = [ fetch "/api/weather?lat=28.6139&lon=77.209";
        fetch "/api/soil?lat=28.6139&lon=77.209" ]
  ∧ ¬ no_fetch (step online_browser Index_props rt
                  (position_settled 0 (position_resolved 28.6139 77.209))).2.
Proof.
  intros rt. split_and!; try reflexivity.
  intros Hnone. apply Forall_cons_1 in Hnone as [Hweather _]. discriminate.
Qed.

(** ** C7 *)

Lemma detectLocation_failure_keeps_location_witness :
  let c := initial browser_without_geolocation in
  let rt := page_after online_browser [click_detect] in
  navigator_geolocation browser_without_geolocation = false
  ∧ on (detectLocation browser_without_geolocation) c
    = (c, [toast location_not_supported], Normal ())
  ∧ suspended rt !! 0 = Some (awaiting_position true)
  ∧ (step online_browser Index_props rt
       (position_settled 0 (position_rejected PERMISSION_DENIED))).2
    = [toast location_error].
Proof.
  intros c rt.
  destruct (detectLocation_failure_keeps_location online_browser Index_props)
    as (_ & _ & _ & Hfail & _).
  destruct (detectLocation_failure_keeps_location browser_without_geolocation
              Index_props) as (Hnone & _).
  split_and!.
  - reflexivity.
  - apply Hnone. reflexivity.
  - reflexivity.
  - apply (Hfail rt 0 true PERMISSION_DENIED). reflexivity.
Defined.

(** ** C8 *)

(** Three calls: one ended by a timeout, one started offline, and one started
    online whose weather request fails. *)
Lemma detectLocation_releases_flag_witness :
  let started := page_after online_browser [click_detect] in
  let started_offline := page_after offline_browser [click_detect] in
  let arrived := position_settled 0 (position_resolved 28.6139 77.209) in
  let failed := fetch_rejected "TypeError: Failed to fetch" in
  isLocating (ui started) = true
  ∧ suspended started !! 0 = Some (awaiting_position true)
  ∧ suspended started_offline !! 0 = Some (awaiting_position false)
  ∧ call_ended 0
      (step online_browser Index_props started
         (position_settled 0 (position_rejected TIMEOUT))).1
  ∧ call_ended 0 (step offline_browser Index_props started_offline arrived).1
  ∧ call_ended 0
      (run online_browser Index_props started
         [arrived; fetcher_done 0 Soil (fetch_json "{}");
          fetcher_done 0 Weather failed]).1.
Proof.
  intros started started_offline arrived failed.
  assert (Hon : suspended started !! 0 = Some (awaiting_position true))
    by reflexivity.
  assert (Hoff : suspended started_offline !! 0 = Some (awaiting_position false))
    by reflexivity.
  destruct (detectLocation_releases_flag online_browser Index_props started 0)
    as (_ & _ & Hrejected & _ & Honline & _).
  destruct (detectLocation_releases_flag offline_browser Index_props
              started_offline 0) as (_ & _ & _ & Hoffline & _).
  split_and!; [reflexivity|exact Hon|exact Hoff| | |].
  - exact (Hrejected true TIMEOUT Hon).
  - exact (Hoffline 28.6139%float 77.209%float Hoff).
  - exact (proj2 (Honline 28.6139%float 77.209%float failed (fetch_json "{}") Hon)).
Defined.

(** ** C10 *)

Lemma handlePredict_fixed_result_witness :
  let c := ui (page_after online_browser rice_form) in
  required_fields_filled (data c)
  ∧ ∃ outcome : PredictionResult,
      result (after (on (handlePredict online_browser Index_props)) c) = Some outcome
      ∧ predictedYield outcome = PredictedYield.mk 4.2 "tonnes/hectare"
      ∧ confidenceInterval outcome = ConfidenceInterval.mk 3.8 4.6
      ∧ length (recommendations outcome) = 3.
Proof.
  intros c.
  assert (Hok : required_fields_filled (data c)).
  { split_and!; [discriminate..|reflexivity]. }
  split; [exact Hok|].
  destruct (handlePredict_fixed_result online_browser Index_props c Hok)
    as (outcome & Hres & Hyield & Hci & _ & Hlen & _).
  exists outcome. split_and!; [exact Hres|exact Hyield|exact Hci|exact Hlen].
Defined.

(** * The lifecycle of the page *)

Lemma gate_passes_spec (d : PredictionData) :
  gate_passes d = true ↔ required_fields_filled d.
Proof.
  unfold gate_passes, required_fields_filled.
  rewrite !andb_true_iff, !truthy_string_spec. tauto.
Qed.

Lemma gate_fails_spec (d : PredictionData) :
  gate_passes d = false ↔ ¬ required_fields_filled d.
Proof.
  rewrite <- gate_passes_spec. destruct (gate_passes d); split; congruence.
Qed.

(** The cases of a step, for a statement about a cell after it: the events
    that run one setter are settled by computation, the stretches of
    [detectLocation] by the outcome they are resumed with, the two buttons by
    what their handler returns. *)
Ltac cell_after_step P props :=
  lazymatch goal with
  | |- context [step P props ?rt ?ev] =>
      destruct rt as [c calls next]; simpl; intros;
      destruct ev as [| | |u|x| |call o|call who o| |]; unfold step; simpl;
      try (rewrite ui_dispatch; simpl); try done;
      try solve
        [ destruct (isLocating c) eqn:?; [done|];
          rewrite ui_dispatch; simpl; act_unfold;
          by destruct (navigator_geolocation P)
        | destruct (calls !! call) as [[b|name w s]|]; [|by destruct o..];
          rewrite ui_resume; simpl; act_unfold; destruct o, b; done
        | destruct who;
          [ destruct (calls !! call) as [[b|name [] s]|]; [done..| |done];
            rewrite ui_resume; simpl; act_unfold; destruct o, s; done
          | destruct (calls !! call) as [[b|name w []]|]; [done..| |done];
            rewrite ui_resume; simpl; act_unfold; destruct o, w; done ]
        | destruct (isLoading c) eqn:?; [done|];
          rewrite ui_dispatch; simpl; unfold after;
          destruct (gate_passes (data c)) eqn:Hgate;
          [ apply gate_passes_spec in Hgate;
            by rewrite (handlePredict_accepts P props c Hgate)
          | apply gate_fails_spec in Hgate;
            by rewrite (handlePredict_rejects P props c Hgate) ]
        | by rewrite handleSave_cells ]
  end.

(** The same cases, for a statement about the calls in flight or the log. *)
Ltac effect_of_step P props :=
  lazymatch goal with
  | |- context [step P props ?rt ?ev] =>
      destruct rt as [c calls next]; simpl;
      destruct ev as [| | |u|x| |call o|call who o| |]; unfold step; simpl;
      try done;
      try solve
        [ destruct (isLocating c); [done|];
          simpl; unfold dispatch; simpl; act_unfold;
          by destruct (navigator_geolocation P)
        | destruct (calls !! call) as [[b|name w s]|]; [|by destruct o..];
          unfold resume; simpl; act_unfold; destruct o, b; done
        | destruct who;
          [ destruct (calls !! call) as [[b|name [] s]|]; [done..| |done];
            unfold resume; simpl; act_unfold; destruct o, s; done
          | destruct (calls !! call) as [[b|name w []]|]; [done..| |done];
            unfold resume; simpl; act_unfold; destruct o, w; done ]
        | destruct (isLoading c); [done|];
          unfold dispatch; simpl;
          destruct (gate_passes (data c)) eqn:Hgate;
          [ apply gate_passes_spec in Hgate;
            by rewrite (handlePredict_accepts P props c Hgate)
          | apply gate_fails_spec in Hgate;
            by rewrite (handlePredict_rejects P props c Hgate) ]
        | unfold dispatch; simpl; act_unfold;
          destruct (onSave props) as [f|]; [destruct (f (data c))|]; done ]
  end.

Section Lifecycle.

Variable P : Platform.
Variable props : CropYieldPredictorProps.

(** ** What a step writes *)

Lemma step_data (rt : Runtime) (ev : Event) :
  data (ui (step P props rt ev).1) =
  match ev with
  | input u => updateField P u (data (ui rt))
  | click_fertilizer x =>
      with_fertilizersUsed (toggled (selectedFertilizers (ui rt)) x) (data (ui rt))
  | position_settled call (position_resolved lat lon) =>
      match suspended rt !! call with
      | Some (awaiting_position _) =>
          with_farmLocation (Some (located P lat lon)) (data (ui rt))
      | _ => data (ui rt)
      end
  | _ => data (ui rt)
  end.
Proof. cell_after_step P props. Qed.

Lemma step_isOnline (rt : Runtime) (ev : Event) :
  isOnline (ui (step P props rt ev).1) =
  match ev with
  | window_online => true
  | window_offline => false
  | _ => isOnline (ui rt)
  end.
Proof. cell_after_step P props. Qed.

Lemma step_isLoading (rt : Runtime) (ev : Event) :
  isLoading (ui rt) = false → isLoading (ui (step P props rt ev).1) = false.
Proof. cell_after_step P props. Qed.

Lemma step_result (rt : Runtime) (ev : Event) :
  result (ui (step P props rt ev).1) =
  match ev with
  | click_predict =>
      if isLoading (ui rt) then result (ui rt)
      else if gate_passes (data (ui rt)) then Some (mockResult P (ui rt))
      else result (ui rt)
  | _ => result (ui rt)
  end.
Proof. cell_after_step P props. Qed.

Lemma step_isLocating (rt : Runtime) (ev : Event) :
  isLocating (ui (step P props rt ev).1) =
  match ev with
  | click_detect => isLocating (ui rt) || navigator_geolocation P
  | position_settled call o =>
      match suspended rt !! call, o with
      | Some (awaiting_position true), position_resolved _ _ => isLocating (ui rt)
      | Some (awaiting_position _), _ => false
      | _, _ => isLocating (ui rt)
      end
  | fetcher_done call Weather _ =>
      match suspended rt !! call with
      | Some (awaiting_enrichment _ false soil_settled) =>
          if soil_settled then false else isLocating (ui rt)
      | _ => isLocating (ui rt)
      end
  | fetcher_done call Soil _ =>
      match suspended rt !! call with
      | Some (awaiting_enrichment _ weather_settled false) =>
          if weather_settled then false else isLocating (ui rt)
      | _ => isLocating (ui rt)
      end
  | _ => isLocating (ui rt)
  end.
Proof. cell_after_step P props. Qed.

Lemma step_suspended (rt : Runtime) (ev : Event) :
  suspended (step P props rt ev).1 =
  match ev with
  | click_detect =>
      if isLocating (ui rt) || negb (navigator_geolocation P) then suspended rt
      else <[next_call rt := awaiting_position (isOnline (ui rt))]> (suspended rt)
  | position_settled call o =>
      match suspended rt !! call, o with
      | Some (awaiting_position true), position_resolved lat lon =>
          <[call := awaiting_enrichment (FarmLocation.name (located P lat lon))
                      false false]> (suspended rt)
      | Some (awaiting_position _), _ => delete call (suspended rt)
      | _, _ => suspended rt
      end
  | fetcher_done call Weather _ =>
      match suspended rt !! call with
      | Some (awaiting_enrichment name false soil_settled) =>
          if soil_settled then delete call (suspended rt)
          else <[call := awaiting_enrichment name true false]> (suspended rt)
      | _ => suspended rt
      end
  | fetcher_done call Soil _ =>
      match suspended rt !! call with
      | Some (awaiting_enrichment name weather_settled false) =>
          if weather_settled then delete call (suspended rt)
          else <[call := awaiting_enrichment name false true]> (suspended rt)
      | _ => suspended rt
      end
  | _ => suspended rt
  end.
Proof. effect_of_step P props. Qed.

Lemma step_log (rt : Runtime) (ev : Event) :
  (step P props rt ev).2 =
  match ev with
  | click_detect =>
      if isLocating (ui rt) || navigator_geolocation P then []
      else [toast location_not_supported]
  | position_settled call o =>
      match suspended rt !! call, o with
      | Some (awaiting_position _), position_rejected _ => [toast location_error]
      | Some (awaiting_position true), position_resolved lat lon =>
          enrichment_requests P lat lon
      | Some (awaiting_position false), position_resolved lat lon =>
          [toast (location_detected (FarmLocation.name (located P lat lon)))]
      | _, _ => []
      end
  | fetcher_done call Weather o =>
      match suspended rt !! call with
      | Some (awaiting_enrichment name false soil_settled) =>
          log_of (fetcher_settled Weather o (ui rt))
          ++ (if soil_settled then [toast (location_detected name)] else [])
      | _ => []
      end
  | fetcher_done call Soil o =>
      match suspended rt !! call with
      | Some (awaiting_enrichment name weather_settled false) =>
          log_of (fetcher_settled Soil o (ui rt))
          ++ (if weather_settled then [toast (location_detected name)] else [])
      | _ => []
      end
  | click_predict =>
      if isLoading (ui rt) then []
      else if gate_passes (data (ui rt)) then predict_log props (data (ui rt))
      else [toast missing_information]
  | click_save => log_of (on (handleSave props) (ui rt))
  | _ => []
  end.
Proof. effect_of_step P props. Qed.

Lemma run_log_cons (rt : Runtime) (ev : Event) (evs : list Event) :
  (run P props rt (ev :: evs)).2
  = (step P props rt ev).2 ++ (run P props (step P props rt ev).1 evs).2.
Proof.
  simpl. destruct (step P props rt ev) as [rt1 log1]. simpl.
  by destruct (run P props rt1 evs).
Qed.

(** What holds of the log of every step holds of the log of every run. *)
Lemma run_log_Forall (Q : Effect → Prop) :
  (∀ rt ev, Forall Q (step P props rt ev).2) →
  ∀ evs rt, Forall Q (run P props rt evs).2.
Proof.
  intros Hstep. induction evs as [|ev evs IH]; intros rt; [constructor|].
  rewrite run_log_cons. apply Forall_app. split; [apply Hstep|apply IH].
Qed.

End Lifecycle.

(** ** Flags *)

Section Flags.

Variable P : Platform.
Variable props : CropYieldPredictorProps.

(** X1.  The submitting flag is false after every run of the page, so the
    "Predict" button is never found disabled: a click on it always runs
    [handlePredict]. *)
Theorem submitting_flag_never_observed (evs : list Event) :
  let rt := (run P props (mount P) evs).1 in
  isLoading (ui rt) = false
  ∧ step P props rt click_predict = dispatch (on (handlePredict P props)) rt.
Proof.
  intros rt.
  assert (Hidle : isLoading (ui rt) = false).
  { apply (run_invariant P props (λ rt, isLoading (ui rt) = false)); [|done].
    intros rt' ev. apply step_isLoading. }
  split; [done|]. unfold step. by rewrite Hidle.
Qed.

Lemma step_single_flight (rt : Runtime) (ev : Event) :
  single_flight rt → single_flight (step P props rt ev).1.
Proof.
  unfold single_flight. rewrite step_isLocating, step_suspended.
  destruct ev as [| | |u|x| |call o|call who o| |]; try done.
  - destruct (isLocating (ui rt)); [done|]. simpl. intros ->.
    destruct (navigator_geolocation P); simpl; [|done].
    rewrite insert_empty. eauto.
  - destruct (isLocating (ui rt)).
    + intros (k & t & ->).
      destruct (decide (call = k)) as [->|Hne].
      * rewrite lookup_singleton_eq.
        destruct t as [[]|name w s], o as [lat lon|e];
          rewrite ?insert_singleton_eq, ?delete_singleton_eq; eauto.
      * rewrite lookup_singleton_ne by done. destruct o; eauto.
    + intros ->. rewrite lookup_empty. by destruct o.
  - destruct (isLocating (ui rt)).
    + intros (k & t & ->).
      destruct (decide (call = k)) as [->|Hne].
      * rewrite lookup_singleton_eq.
        destruct who, t as [b|name [] []];
          rewrite ?insert_singleton_eq, ?delete_singleton_eq; eauto.
      * rewrite lookup_singleton_ne by done. destruct who; eauto.
    + intros ->. rewrite lookup_empty. by destruct who.
Qed.

(** X2.  After every run of the page at most one [detectLocation] call is in
    flight, and the locating flag is true exactly while one is: the "Detect
    GPS" button is disabled from the start of a call to its end. *)
Theorem detectLocation_single_flight (evs : list Event) :
  let rt := (run P props (mount P) evs).1 in
  single_flight rt
  ∧ (size (suspended rt) ≤ 1)%nat
  ∧ (isLocating (ui rt) = true ↔ suspended rt ≠ ∅).
Proof.
  intros rt.
  assert (Hone : single_flight rt).
  { apply (run_invariant P props single_flight step_single_flight); done. }
  split; [done|]. unfold single_flight in Hone.
  destruct (isLocating (ui rt)).
  - destruct Hone as (k & t & ->). rewrite map_size_singleton.
    split; [lia|]. split; [|done]. intros _ Hempty.
    pose proof (lookup_singleton_eq k t) as Hk.
    rewrite Hempty, lookup_empty in Hk. discriminate.
  - rewrite Hone, map_size_empty. split; [lia|]. split; [discriminate|done].
Qed.

Lemma run_isOnline (evs : list Event) (rt : Runtime) :
  isOnline (ui (run P props rt evs).1) = last_reachability (isOnline (ui rt)) evs.
Proof.
  revert rt. induction evs as [|ev evs IH]; intros rt; [done|].
  rewrite run_cons, IH, step_isOnline. unfold last_reachability. simpl.
  by destruct ev.
Qed.

(** X3.  The reachability flag after a run is the one of the last network
    event of the run, and [navigator.onLine] as read at mounting if there was
    none: no handler of the component writes the flag. *)
Theorem reachability_follows_network_events (evs : list Event) :
  isOnline (ui (run P props (mount P) evs).1)
  = last_reachability (navigator_onLine P) evs.
Proof. apply run_isOnline. Qed.

End Flags.

(** ** The form data *)

Lemma or_zero_stored (x : float) : size_stored (JS.or_zero x).
Proof.
  unfold size_stored, JS.or_zero.
  destruct (JS.truthy_number x) eqn:Hx; [by right|by left].
Qed.

Lemma or_null_stored (x : float) : level_stored (JS.or_null x).
Proof. unfold level_stored, JS.or_null. by destruct (JS.truthy_number x) eqn:Hx. Qed.

Section FormData.

Variable P : Platform.
Variable props : CropYieldPredictorProps.

Lemma updateField_normalised (u : FieldUpdate) (d : PredictionData) :
  numbers_normalised d → numbers_normalised (updateField P u d).
Proof.
  intros (Hsize & HpH & Hn & Hp & Hk).
  destruct u; unfold numbers_normalised; simpl; split_and!;
    solve [done | apply or_zero_stored | apply or_null_stored].
Qed.

Lemma step_normalised (rt : Runtime) (ev : Event) :
  numbers_normalised (data (ui rt)) →
  numbers_normalised (data (ui (step P props rt ev).1)).
Proof.
  intros Hd. rewrite step_data.
  destruct ev as [| | |u|x| |call o|call who o| |]; try done.
  - by apply updateField_normalised.
  - destruct o; [|done]. by destruct (suspended rt !! call) as [[]|].
Qed.

(** X4.  After every run of the page the numbers of the form are normalised:
    [farmSize.value] is [0] or a truthy number (never [NaN], never [-0]), and
    [soilPH], [nLevel], [pLevel] and [kLevel] are [null] or truthy (a typed
    "0" is stored as [null]).  So on the page the gate of [handlePredict]
    rejects exactly the forms with no crop, no soil type or a size of [0]. *)
Theorem number_inputs_normalised (evs : list Event) :
  let d := data (ui (run P props (mount P) evs).1) in
  numbers_normalised d
  ∧ (gate_passes d = false
     ↔ cropName d = "" ∨ soilType d = "" ∨ FarmSize.value (farmSize d) = 0%float).
Proof.
  intros d.
  assert (Hd : numbers_normalised d).
  { apply (run_invariant P props (λ rt, numbers_normalised (data (ui rt)))
             step_normalised).
    repeat split; by left. }
  split; [done|]. destruct Hd as (Hsize & _).
  rewrite gate_fails_spec. unfold required_fields_filled. split.
  - intros Hno.
    destruct (decide (cropName d = "")) as [|Hcrop]; [by left|].
    destruct (decide (soilType d = "")) as [|Hsoil]; [by right; left|].
    right; right. destruct Hsize as [?|Hsize]; [done|]. tauto.
  - intros [Hcrop|[Hsoil|Hzero]] (? & ? & Htruthy); [done..|].
    rewrite Hzero in Htruthy. discriminate.
Qed.

Lemma updateField_farmLocation (u : FieldUpdate) (d : PredictionData) :
  farmLocation (updateField P u d) = farmLocation d.
Proof. by destruct u. Qed.

(** X5.  Only the arrival of a position writes the location: a step that
    changes [farmLocation] is the resolution of the position request of a
    suspended [detectLocation] call, and it stores that position under the
    name made of its two coordinates with four decimals. *)
Theorem location_written_only_by_detection (rt : Runtime) (ev : Event) :
  farmLocation (data (ui (step P props rt ev).1)) ≠ farmLocation (data (ui rt)) →
  ∃ call closure_isOnline latitude longitude,
    ev = position_settled call (position_resolved latitude longitude)
    ∧ suspended rt !! call = Some (awaiting_position closure_isOnline)
    ∧ farmLocation (data (ui (step P props rt ev).1))
      = Some (located P latitude longitude).
Proof.
  rewrite step_data.
  destruct ev as [| | |u|x| |call o|call who o| |]; try done.
  - by rewrite updateField_farmLocation.
  - destruct o as [lat lon|e]; [|done].
    destruct (suspended rt !! call) as [[b|name w s]|] eqn:Hcall; [|done..].
    intros _. by exists call, b, lat, lon.
Qed.

Lemma step_never_located (rt : Runtime) (ev : Event) :
  navigator_geolocation P = false →
  never_located rt → never_located (step P props rt ev).1.
Proof.
  intros Hgeo (Hloc & Hidle & Hnone). unfold never_located.
  rewrite step_data, step_isLocating, step_suspended, Hidle, Hnone, Hgeo.
  destruct ev as [| | |u|x| |call o|call who o| |];
    rewrite ?lookup_empty; try done.
  - by rewrite updateField_farmLocation.
  - by destruct o.
  - by destruct who.
Qed.

(** X6.  In a browser without geolocation nothing is ever located: after
    every run of the page the form has no location, the locating flag is
    false and no call is in flight. *)
Theorem no_geolocation_never_locates (evs : list Event) :
  navigator_geolocation P = false →
  never_located (run P props (mount P) evs).1.
Proof.
  intros Hgeo.
  apply (run_invariant P props never_located); [|done].
  intros rt ev. by apply step_never_located.
Qed.

(** X7.  When the position of a suspended call arrives, the step stores it
    as the location and leaves every other attribute of the form as it was.
    A call started offline ends there, with the "Location detected" toast
    and the locating flag cleared; a call started online issues the weather
    and the soil request for the position, in that order, and stays
    suspended with the locating flag as it was. *)
Theorem position_resolved_writes_location (rt : Runtime) (call : nat)
    (closure_isOnline : bool) (latitude longitude : float) :
  suspended rt !! call = Some (awaiting_position closure_isOnline) →
  let arrived :=
    step P props rt (position_settled call (position_resolved latitude longitude)) in
  data (ui arrived.1)
  = with_farmLocation (Some (located P latitude longitude)) (data (ui rt))
  ∧ (∀ f, f ≠ f_farmLocation → read f (data (ui arrived.1)) = read f (data (ui rt)))
  ∧ if closure_isOnline then
      arrived.2 = enrichment_requests P latitude longitude
      ∧ suspended arrived.1 !! call
        = Some (awaiting_enrichment
                  (FarmLocation.name (located P latitude longitude)) false false)
      ∧ isLocating (ui arrived.1) = isLocating (ui rt)
    else
      arrived.2
      = [toast (location_detected (FarmLocation.name (located P latitude longitude)))]
      ∧ suspended arrived.1 !! call = None
      ∧ isLocating (ui arrived.1) = false.
Proof.
  intros Hcall arrived. subst arrived.
  rewrite step_data, step_log, step_suspended, step_isLocating, Hcall.
  split_and!; [done|by intros []|].
  destruct closure_isOnline; split_and!; try done.
  - apply lookup_insert_eq.
  - apply lookup_delete_eq.
Qed.

End FormData.

(** ** The stored prediction and the collaborators *)

Section Collaborators.

Variable P : Platform.
Variable props : CropYieldPredictorProps.

Lemma run_keeps_no_result (evs : list Event) :
  Forall (λ ev, ev ≠ click_predict) evs →
  ∀ rt, result (ui rt) = None → result (ui (run P props rt evs).1) = None.
Proof.
  induction 1 as [|ev evs Hev _ IH]; intros rt Hnone; [done|].
  rewrite run_cons. apply IH. rewrite step_result. by destruct ev.
Qed.

(** X8.  The stored prediction changes only when a click on "Predict" finds
    the required fields filled in, and then it is the prediction made from
    the form and the reachability flag of that moment; no event removes a
    stored prediction, and a run without a click on "Predict" stores none. *)
Theorem prediction_lifecycle :
  (∀ (rt : Runtime) (ev : Event),
     result (ui (step P props rt ev).1) ≠ result (ui rt) →
     ev = click_predict
     ∧ required_fields_filled (data (ui rt))
     ∧ result (ui (step P props rt ev).1) = Some (mockResult P (ui rt)))
  ∧ (∀ (evs : list Event) (rt : Runtime),
       is_Some (result (ui rt)) → is_Some (result (ui (run P props rt evs).1)))
  ∧ (∀ evs : list Event,
       Forall (λ ev, ev ≠ click_predict) evs →
       result (ui (run P props (mount P) evs).1) = None).
Proof.
  split_and!.
  - intros rt ev. rewrite step_result.
    destruct ev; try done.
    destruct (isLoading (ui rt)); [done|].
    destruct (gate_passes (data (ui rt))) eqn:Hgate; [|done].
    intros _. split_and!; [done| |done]. by apply gate_passes_spec.
  - intros evs.
    apply (run_invariant P props (λ rt, is_Some (result (ui rt)))).
    intros rt ev Hsome. rewrite step_result.
    destruct ev; try done.
    destruct (isLoading (ui rt)); [done|].
    destruct (gate_passes (data (ui rt))); [by eexists|done].
  - intros evs Hevs. by apply run_keeps_no_result.
Qed.

(** X9.  When the [onPredict] collaborator throws on an accepted form, the
    exception stops in [handlePredict]: the handler completes normally with
    the submitting flag cleared, after the call it shows the "Prediction
    error" toast, and the new prediction is stored all the same, since it is
    stored before the collaborator is called. *)
Theorem handlePredict_collaborator_throws (c : Component)
    (f : PredictionData → CallbackResult) :
  required_fields_filled (data c) →
  onPredict props = Some f →
  f (data c) = throws →
  log_of (on (handlePredict P props) c)
  = [call_onPredict (data c); toast prediction_error]
  ∧ completion_of (on (handlePredict P props) c) = Normal ()
  ∧ result (after (on (handlePredict P props)) c) = Some (mockResult P c)
  ∧ isLoading (after (on (handlePredict P props)) c) = false.
Proof.
  intros Hok Hf Hthrows. unfold after.
  rewrite (handlePredict_accepts P props c Hok). unfold predict_log.
  by rewrite Hf, Hthrows.
Qed.

(** X10.  [handlePredict] calls [onPredict] once, with the [data] of the
    form, when the form passes the gate and a collaborator is there, and not
    at all otherwise; it never changes [data], the reachability flag or the
    locating flag. *)
Theorem onPredict_notified_once (c : Component) :
  List.filter is_call_onPredict (log_of (on (handlePredict P props) c))
  = (if gate_passes (data c) then
       match onPredict props with
       | Some _ => [call_onPredict (data c)]
       | None => []
       end
     else [])
  ∧ data (after (on (handlePredict P props)) c) = data c
  ∧ isOnline (after (on (handlePredict P props)) c) = isOnline c
  ∧ isLocating (after (on (handlePredict P props)) c) = isLocating c.
Proof.
  unfold after. destruct (gate_passes (data c)) eqn:Hgate.
  - apply gate_passes_spec in Hgate.
    rewrite (handlePredict_accepts P props c Hgate). unfold predict_log.
    destruct (onPredict props) as [f|]; [destruct (f (data c))|]; done.
  - apply gate_fails_spec in Hgate.
    by rewrite (handlePredict_rejects P props c Hgate).
Qed.

(** X11.  [handleSave] shows the "Data saved" toast exactly when there is no
    [onSave] collaborator or the collaborator returns; when the collaborator
    throws, the exception leaves the handler and no toast is shown.  In no
    case does a cell change. *)
Theorem handleSave_toast_iff_returns (c : Component) :
  (toast data_saved ∈ log_of (on (handleSave props) c)
   ↔ ∀ f, onSave props = Some f → f (data c) = returns)
  ∧ (completion_of (on (handleSave props) c) = Throw callback_error
     ↔ ∃ f, onSave props = Some f ∧ f (data c) = throws)
  ∧ (onSave props = None → log_of (on (handleSave props) c) = [toast data_saved])
  ∧ after (on (handleSave props)) c = c.
Proof.
  unfold after, on, handleSave, optional_call.
  destruct (onSave props) as [f|] eqn:Hf; [destruct (f (data c)) eqn:Hfd|];
    simpl; split_and!; try done.
  - split; [by intros _ ? [= <-]|]. intros _. set_solver.
  - split; [done|]. intros (g & [= <-] & Hg). congruence.
  - split.
    + intros Hin. apply list_elem_of_singleton in Hin. discriminate.
    + intros Hall. specialize (Hall f eq_refl). congruence.
  - split; [by eauto|done].
  - split; [done|]. intros _. set_solver.
  - split; [done|]. by intros (g & ? & _).
Qed.

(** *** The network and the failures *)

Lemma predict_log_no_fetch (d : PredictionData) : no_fetch (predict_log props d).
Proof.
  unfold predict_log, no_fetch.
  destruct (onPredict props) as [f|]; [destruct (f d)|]; repeat constructor.
Qed.

Lemma handleSave_no_fetch (c : Component) :
  no_fetch (log_of (on (handleSave props) c)).
Proof.
  unfold on, handleSave, optional_call, no_fetch.
  destruct (onSave props) as [f|]; [destruct (f (data c))|]; repeat constructor.
Qed.

(** X12.  The component calls [fetch] only when the position of a call that
    was started online arrives, and then exactly twice: the weather request
    and the soil request for that position.  Predicting and saving never
    touch the network. *)
Theorem network_only_from_detection (rt : Runtime) (ev : Event) :
  ¬ no_fetch (step P props rt ev).2 →
  ∃ call latitude longitude,
    ev = position_settled call (position_resolved latitude longitude)
    ∧ suspended rt !! call = Some (awaiting_position true)
    ∧ (step P props rt ev).2 = enrichment_requests P latitude longitude.
Proof.
  rewrite step_log. unfold no_fetch.
  destruct ev as [| | |u|x| |call o|call who o| |];
    try (by intros []; constructor).
  - intros []. destruct (isLocating (ui rt) || navigator_geolocation P);
      repeat constructor.
  - destruct (suspended rt !! call) as [[[]|name w s]|] eqn:Hcall,
      o as [lat lon|e]; try (by intros []; repeat constructor).
    intros _. by exists call, lat, lon.
  - intros []. destruct who.
    + destruct (suspended rt !! call) as [[b|name [] s]|];
        try (by constructor).
      destruct o, s; repeat constructor.
    + destruct (suspended rt !! call) as [[b|name w []]|];
        try (by constructor).
      destruct o, w; repeat constructor.
  - intros []. destruct (isLoading (ui rt)); [constructor|].
    destruct (gate_passes (data (ui rt)));
      [apply predict_log_no_fetch|repeat constructor].
  - intros []. apply handleSave_no_fetch.
Qed.

(** X13.  A step that raises a destructive toast (missing information, no
    geolocation, location error, prediction error) leaves the form data as
    it was. *)
Theorem failure_keeps_form_data (rt : Runtime) (ev : Event) :
  Exists (λ e, is_destructive_toast e = true) (step P props rt ev).2 →
  data (ui (step P props rt ev).1) = data (ui rt).
Proof.
  rewrite step_log, step_data.
  destruct ev as [| | |u|x| |call o|call who o| |]; try done.
  - by intros ?%Exists_nil.
  - by intros ?%Exists_nil.
  - destruct o as [lat lon|e]; [|done].
    destruct (suspended rt !! call) as [[[]|name w s]|]; [| |done..].
    + intros H. repeat (apply Exists_cons in H as [H|H]; [discriminate|]).
      by apply Exists_nil in H.
    + intros H. repeat (apply Exists_cons in H as [H|H]; [discriminate|]).
      by apply Exists_nil in H.
Qed.

(** X14.  The failures of the enrichment are never shown: the step of a
    fetcher that settles, with a body or with an error, raises no
    destructive toast and leaves the form data and the stored prediction as
    they were. *)
Theorem enrichment_failures_swallowed (rt : Runtime) (call : nat)
    (who : Fetcher) (o : FetchOutcome) :
  let settled := step P props rt (fetcher_done call who o) in
  Forall (λ e, is_destructive_toast e = false) settled.2
  ∧ data (ui settled.1) = data (ui rt)
  ∧ result (ui settled.1) = result (ui rt).
Proof.
  intros settled. subst settled.
  rewrite step_log, step_data, step_result. split_and!; [|done..].
  destruct who.
  - destruct (suspended rt !! call) as [[b|name [] s]|]; try constructor.
    all: destruct o, s; repeat constructor.
  - destruct (suspended rt !! call) as [[b|name w []]|]; try constructor.
    all: destruct o, w; repeat constructor.
Qed.

End Collaborators.

(** ** How the operations compose *)

Section Composition.

Variable P : Platform.
Variable props : CropYieldPredictorProps.

(** X15.  Once both requests of the enrichment are out, the order in which
    the two fetchers settle does not matter: either way the page ends in the
    same state, with the call gone, the locating flag cleared and the form
    data untouched, and the "Location detected" toast comes last, after the
    two console lines. *)
Theorem enrichment_order_irrelevant (rt : Runtime) (call : nat) (name : string)
    (weather soil : FetchOutcome) :
  suspended rt !! call = Some (awaiting_enrichment name false false) →
  let weather_first :=
    run P props rt [fetcher_done call Weather weather; fetcher_done call Soil soil] in
  let soil_first :=
    run P props rt [fetcher_done call Soil soil; fetcher_done call Weather weather] in
  weather_first.1 = soil_first.1
  ∧ suspended weather_first.1 = delete call (suspended rt)
  ∧ isLocating (ui weather_first.1) = false
  ∧ data (ui weather_first.1) = data (ui rt)
  ∧ weather_first.2
    = log_of (fetcher_settled Weather weather (ui rt))
      ++ log_of (fetcher_settled Soil soil (ui rt))
      ++ [toast (location_detected name)]
  ∧ soil_first.2
    = log_of (fetcher_settled Soil soil (ui rt))
      ++ log_of (fetcher_settled Weather weather (ui rt))
      ++ [toast (location_detected name)].
Proof.
  intros Hcall. destruct rt as [c calls next]. simpl in Hcall.
  cbn [run]. unfold step. cbn [suspended]. rewrite Hcall.
  unfold resume. act_unfold.
  destruct weather, soil; simpl; rewrite !lookup_insert_eq; simpl;
    rewrite !delete_insert_eq; done.
Qed.

(** X16.  Two inputs of the form compose as writes to their own attribute:
    of two inputs to the same attribute only the second counts, and two
    inputs to different attributes can be swapped. *)
Theorem updateField_composition (u1 u2 : FieldUpdate) (d : PredictionData) :
  (target u1 = target u2 →
   updateField P u2 (updateField P u1 d) = updateField P u2 d)
  ∧ (target u1 ≠ target u2 →
     updateField P u1 (updateField P u2 d) = updateField P u2 (updateField P u1 d)).
Proof.
  destruct u1, u2; simpl; split; intros Htarget;
    solve [reflexivity | discriminate | by destruct Htarget].
Qed.

Lemma elem_of_toggled (xs : list string) (x y : string) :
  y ∈ toggled xs x ↔ if decide (y = x) then x ∉ xs else y ∈ xs.
Proof.
  unfold toggled, JS.includes. case_bool_decide as Hin.
  - rewrite list_elem_of_filter. case_decide; subst; tauto.
  - rewrite elem_of_app, list_elem_of_singleton. case_decide; subst; tauto.
Qed.

(** X17.  A click on the badge of a fertilizer flips the membership of that
    name in the selection and of no other name; a name that is added goes to
    the end, a name that is removed leaves the others in their order; and
    [fertilizersUsed] gets the same array. *)
Theorem click_fertilizer_flips_membership (rt : Runtime) (x : string) :
  let before := selectedFertilizers (ui rt) in
  let clicked := ui (step P props rt (click_fertilizer x)).1 in
  (∀ y, y ∈ selectedFertilizers clicked
        ↔ if decide (y = x) then x ∉ before else y ∈ before)
  ∧ selectedFertilizers clicked
    = (if bool_decide (x ∈ before) then filter (λ f, f ≠ x) before
       else before ++ [x])
  ∧ fertilizersUsed (data clicked) = selectedFertilizers clicked.
Proof.
  intros before clicked.
  destruct (step_selection P props rt (click_fertilizer x)) as [Hsel Hdata].
  fold clicked before in Hsel, Hdata. rewrite Hsel, Hdata.
  split_and!; [|done..]. intros y. apply elem_of_toggled.
Qed.

Lemma predict_log_returns (d : PredictionData) :
  (∀ f d', onPredict props = Some f → f d' = returns) →
  Forall (λ e, e ≠ toast prediction_error) (predict_log props d).
Proof.
  intros Hreturns. unfold predict_log.
  destruct (onPredict props) as [f|] eqn:Hf; [|constructor].
  rewrite (Hreturns f d eq_refl). by repeat constructor.
Qed.

(** X18.  With an [onPredict] collaborator that always returns, as the one
    [Index] passes, no run of the page ever shows the "Prediction error"
    toast. *)
Theorem prediction_error_needs_throwing_collaborator (evs : list Event) :
  (∀ f d, onPredict props = Some f → f d = returns) →
  toast prediction_error ∉ (run P props (mount P) evs).2.
Proof.
  intros Hreturns Hin.
  assert (Hnever : Forall (λ e, e ≠ toast prediction_error)
                     (run P props (mount P) evs).2).
  { apply run_log_Forall. intros rt ev. rewrite step_log.
    destruct ev as [| | |u|x| |call o|call who o| |]; try constructor.
    - destruct (isLocating (ui rt) || navigator_geolocation P);
        by repeat constructor.
    - destruct (suspended rt !! call) as [[[]|name w s]|], o;
        by repeat constructor.
    - destruct who.
      + destruct (suspended rt !! call) as [[b|name [] s]|]; try constructor.
        all: destruct o, s; by repeat constructor.
      + destruct (suspended rt !! call) as [[b|name w []]|]; try constructor.
        all: destruct o, w; by repeat constructor.
    - destruct (isLoading (ui rt)); [constructor|].
      destruct (gate_passes (data (ui rt)));
        [by apply predict_log_returns|by repeat constructor].
    - unfold on, handleSave, optional_call.
      destruct (onSave props) as [f|]; [destruct (f (data (ui rt)))|];
        by repeat constructor. }
  rewrite Forall_forall in Hnever. by apply (Hnever _ Hin).
Qed.

End Composition.

(** * The lifecycle statements at work *)

(** ** X5 *)

Lemma location_written_only_by_detection_witness :
  let rt := page_after online_browser [click_detect] in
  let ev := position_settled 0 new_delhi in
  farmLocation (data (ui (step online_browser Index_props rt ev).1))
  ≠ farmLocation (data (ui rt))
  ∧ ∃ call closure_isOnline latitude longitude,
      ev = position_settled call (position_resolved latitude longitude)
      ∧ suspended rt !! call = Some (awaiting_position closure_isOnline)
      ∧ farmLocation (data (ui (step online_browser Index_props rt ev).1))
        = Some (located online_browser latitude longitude).
Proof.
  intros rt ev.
  assert (Hchanged :
    farmLocation (data (ui (step online_browser Index_props rt ev).1))
    ≠ farmLocation (data (ui rt))) by discriminate.
  split; [exact Hchanged|].
  exact (location_written_only_by_detection online_browser Index_props rt ev Hchanged).
Defined.

(** ** X6 *)

Lemma no_geolocation_never_locates_witness :
  navigator_geolocation browser_without_geolocation = false
  ∧ never_located
      (run browser_without_geolocation Index_props
         (mount browser_without_geolocation)
         [click_detect; position_settled 0 new_delhi]).1.
Proof.
  split; [reflexivity|].
  apply (no_geolocation_never_locates browser_without_geolocation Index_props).
  reflexivity.
Defined.

(** ** X7 *)

Lemma position_resolved_writes_location_witness :
  let rt := page_after offline_browser [click_detect] in
  let arrived :=
    step offline_browser Index_props rt (position_settled 0 new_delhi) in
  suspended rt !! 0 = Some (awaiting_position false)
  ∧ farmLocation (data (ui arrived.1))
    = Some (FarmLocation.mk 28.6139 77.209 "28.6139, 77.2090")
  ∧ arrived.2 = [toast (location_detected "28.6139, 77.2090")]
  ∧ isLocating (ui arrived.1) = false.
Proof.
  intros rt arrived.
  assert (Hcall : suspended rt !! 0 = Some (awaiting_position false))
    by reflexivity.
  destruct (position_resolved_writes_location offline_browser Index_props rt 0
              false 28.6139 77.209 Hcall) as (Hdata & _ & Hlog & _ & Hflag).
  split_and!; [exact Hcall| |exact Hlog|exact Hflag].
  subst arrived. unfold new_delhi. rewrite Hdata. reflexivity.
Defined.

(** ** X8 *)

Lemma prediction_lifecycle_witness :
  let rt := page_after online_browser rice_form in
  result (ui rt) = None
  ∧ result (ui (step online_browser Index_props rt click_predict).1)
    = Some (mockResult online_browser (ui rt))
  ∧ result (ui (page_after online_browser (rice_form ++ [click_detect]))) = None.
Proof.
  intros rt.
  destruct (prediction_lifecycle online_browser Index_props)
    as (Hchange & _ & Hnone).
  split_and!.
  - reflexivity.
  - apply (Hchange rt click_predict). discriminate.
  - apply (Hnone (rice_form ++ [click_detect])).
    repeat constructor; discriminate.
Defined.

(** ** X9 *)

Lemma handlePredict_collaborator_throws_witness :
  let c := ui (page_after online_browser rice_form) in
  required_fields_filled (data c)
  ∧ log_of (on (handlePredict online_browser throwing_props) c)
    = [call_onPredict (data c); toast prediction_error]
  ∧ result (after (on (handlePredict online_browser throwing_props)) c)
    = Some (mockResult online_browser c).
Proof.
  intros c.
  assert (Hok : required_fields_filled (data c)).
  { split_and!; [discriminate..|reflexivity]. }
  destruct (handlePredict_collaborator_throws online_browser throwing_props c
              (λ _, throws) Hok eq_refl eq_refl) as (Hlog & _ & Hres & _).
  split_and!; [exact Hok|exact Hlog|exact Hres].
Defined.

(** ** X11 *)

Lemma handleSave_toast_iff_returns_witness :
  let c := initial online_browser in
  onSave no_collaborators = None
  ∧ log_of (on (handleSave no_collaborators) c) = [toast data_saved]
  ∧ completion_of (on (handleSave throwing_props) c) = Throw callback_error.
Proof.
  intros c.
  destruct (handleSave_toast_iff_returns no_collaborators c)
    as (_ & _ & Hnone & _).
  destruct (handleSave_toast_iff_returns throwing_props c)
    as (_ & Hthrows & _).
  split_and!; [reflexivity|apply Hnone; reflexivity|].
  apply Hthrows. exists (λ _, throws). split; reflexivity.
Defined.

(** ** X12 *)

Lemma network_only_from_detection_witness :
  let rt := page_after online_browser [click_detect] in
  let ev := position_settled 0 new_delhi in
  ¬ no_fetch (step online_browser Index_props rt ev).2
  ∧ (step online_browser Index_props rt ev).2
    = enrichment_requests online_browser 28.6139 77.209.
Proof.
  intros rt ev.
  assert (Hfetch : ¬ no_fetch (step online_browser Index_props rt ev).2).
  { intros Hnone. apply Forall_cons_1 in Hnone as [Hweather _]. discriminate. }
  split; [exact Hfetch|].
  destruct (network_only_from_detection online_browser Index_props rt ev Hfetch)
    as (call & lat & lon & Hev & _ & Hlog).
  injection Hev as <- <- <-. exact Hlog.
Defined.

(** ** X13 *)

(** A click on "Predict" on the empty form. *)
Lemma failure_keeps_form_data_witness :
  let rt := mount online_browser in
  (step online_browser Index_props rt click_predict).2 = [toast missing_information]
  ∧ data (ui (step online_browser Index_props rt click_predict).1) = data (ui rt).
Proof.
  intros rt. split; [reflexivity|].
  apply (failure_keeps_form_data online_browser Index_props rt click_predict).
  apply Exists_cons_hd. reflexivity.
Defined.

(** ** X15 *)

Lemma enrichment_order_irrelevant_witness :
  let rt := page_after online_browser [click_detect; position_settled 0 new_delhi] in
  let failed := fetch_rejected "TypeError: Failed to fetch" in
  suspended rt !! 0 = Some (awaiting_enrichment "28.6139, 77.2090" false false)
  ∧ (run online_browser Index_props rt
       [fetcher_done 0 Weather failed; fetcher_done 0 Soil (fetch_json "{}")]).1
    = (run online_browser Index_props rt
         [fetcher_done 0 Soil (fetch_json "{}"); fetcher_done 0 Weather failed]).1
  ∧ (run online_browser Index_props rt
       [fetcher_done 0 Weather failed; fetcher_done 0 Soil (fetch_json "{}")]).2
    = [ console_error "Weather fetch error:" "TypeError: Failed to fetch";
        console_log "Soil data:" "{}";
        toast (location_detected "28.6139, 77.2090") ].
Proof.
  intros rt failed.
  assert (Hcall : suspended rt !! 0
                  = Some (awaiting_enrichment "28.6139, 77.2090" false false))
    by reflexivity.
  destruct (enrichment_order_irrelevant online_browser Index_props rt 0
              "28.6139, 77.2090" failed (fetch_json "{}") Hcall)
    as (Hsame & _ & _ & _ & Hlog & _).
  split_and!; [exact Hcall|exact Hsame|exact Hlog].
Defined.

(** ** X16 *)

Lemma updateField_composition_witness :
  let d := data (initial online_browser) in
  target (farmSize_value_typed "2") = target (farmSize_value_typed "-1")
  ∧ target (farmSize_value_typed "2") ≠ target (farmSize_unit_selected "Acres")
  ∧ updateField online_browser (farmSize_value_typed "-1")
      (updateField online_browser (farmSize_value_typed "2") d)
    = updateField online_browser (farmSize_value_typed "-1") d
  ∧ updateField online_browser (farmSize_value_typed "2")
      (updateField online_browser (farmSize_unit_selected "Acres") d)
    = updateField online_browser (farmSize_unit_selected "Acres")
        (updateField online_browser (farmSize_value_typed "2") d).
Proof.
  intros d.
  assert (Hne : target (farmSize_value_typed "2")
                ≠ target (farmSize_unit_selected "Acres")) by discriminate.
  split_and!; [reflexivity|exact Hne| |].
  - apply (updateField_composition online_browser (farmSize_value_typed "2")
             (farmSize_value_typed "-1") d). reflexivity.
  - apply (updateField_composition online_browser (farmSize_value_typed "2")
             (farmSize_unit_selected "Acres") d). exact Hne.
Defined.

(** ** X18 *)

Lemma prediction_error_needs_throwing_collaborator_witness :
  (∀ f d, onPredict Index_props = Some f → f d = returns)
  ∧ toast prediction_error
    ∉ (run online_browser Index_props (mount online_browser)
         (rice_form ++ [click_predict; click_save])).2.
Proof.
  assert (Hreturns : ∀ f d, onPredict Index_props = Some f → f d = returns).
  { intros f d [= <-]. reflexivity. }
  split; [exact Hreturns|].
  exact (prediction_error_needs_throwing_collaborator online_browser Index_props
           (rice_form ++ [click_predict; click_save]) Hreturns).
Defined.
